(** * iotawatt_kindle: the time-series-to-SVG rendering core of
      [dashboard/bin/run.py], embedded in Rocq.

    Numbers.  The rendering pipeline is modelled over exact rationals ([Q])
    for the JSON numbers and [Z] for the integer keyword arguments
    ([width], [height], [padding]): this model carries the control flow,
    the exceptions, the order of the calls and the shape of the document,
    and comparisons ([min], [max]) are exact in it as they are in Python.
    The value a coordinate is rounded to is not given by it.  The script
    computes in binary64, so what is said about the numeric result of
    [normalise] is stated over [Binary64.normalise], the same formula over
    the IEEE 754 binary64 floats.  The two float-to-text conversions ([str]
    of a float, and the [:0.2f] format) are left as parameters.
    Python exceptions are values of [exn]; [print] appends to the world's
    output; [random.choice([True, False])] reads the world's coin sequence. *)

From Stdlib Require Import QArith ZArith String Ascii List Bool Lia Lqa.
From Stdlib Require Import DecimalString.
From Stdlib Require Floats.
Import ListNotations.

Local Open Scope string_scope.
Local Open Scope Q_scope.

(* ------------------------------------------------------------------ *)
(** ** Exceptions and the error monad *)

Inductive exn : Type :=
| Exception (msg : string)      (* raise Exception("...") *)
| ZeroDivisionError             (* x / 0 *)
| ValueError                    (* min()/max() of an empty sequence, math.log domain *)
| IndexError                    (* list index out of range *)
| KeyError (key : string).      (* missing dict key *)

Inductive result (A : Type) : Type :=
| Ok (a : A)
| Raise (e : exn).
Arguments Ok {A} a.
Arguments Raise {A} e.

Definition rbind {A B} (r : result A) (k : A -> result B) : result B :=
  match r with
  | Ok a => k a
  | Raise e => Raise e
  end.

Declare Scope res_scope.
Delimit Scope res_scope with res.
Notation "x <- r ;; k" := (rbind r (fun x => k))
  (at level 61, r at next level, right associativity) : res_scope.
Local Open Scope res_scope.

(** A comprehension or [for] loop whose body may raise: elements are
    visited left to right and the first exception aborts the loop. *)
Fixpoint mapM {A B} (f : A -> result B) (l : list A) : result (list B) :=
  match l with
  | [] => Ok []
  | a :: l' => b <- f a ;; bs <- mapM f l' ;; Ok (b :: bs)
  end.

(** [l[i]] for a non-negative index. *)
Definition index {A} (l : list A) (i : nat) : result A :=
  match nth_error l i with
  | Some a => Ok a
  | None => Raise IndexError
  end.

(* ------------------------------------------------------------------ *)
(** ** Python dicts: insertion-ordered, one entry per key *)

Definition dict (V : Type) : Type := list (string * V).

Definition keys {V} (d : dict V) : list string := map fst d.
Definition values {V} (d : dict V) : list V := map snd d.

(** [k in d] *)
Fixpoint dict_mem {V} (k : string) (d : dict V) : bool :=
  match d with
  | [] => false
  | (k', _) :: d' => if String.eqb k k' then true else dict_mem k d'
  end.

(** [d[k]] *)
Fixpoint dict_getitem {V} (d : dict V) (k : string) : result V :=
  match d with
  | [] => Raise (KeyError k)
  | (k', v) :: d' => if String.eqb k k' then Ok v else dict_getitem d' k
  end.

(** [d[k] = v]: an existing key keeps its position, a new key goes last. *)
Fixpoint dict_set {V} (k : string) (v : V) (d : dict V) : dict V :=
  match d with
  | [] => [(k, v)]
  | (k', v') :: d' =>
      if String.eqb k k' then (k', v) :: d' else (k', v') :: dict_set k v d'
  end.

(** [{a: b for a, b in items}] *)
Definition dict_of_items {V} (items : list (string * V)) : dict V :=
  fold_left (fun d kv => dict_set (fst kv) (snd kv) d) items [].

(** The values a Python dict can hold: no key occurs twice. *)
Definition dict_wf {V} (d : dict V) : Prop := NoDup (keys d).

(* ------------------------------------------------------------------ *)
(** ** Numbers *)

(** Python's [a < b] on numbers. *)
Definition Qlt_bool (a b : Q) : bool := negb (Qle_bool b a).

(** [min(xs)]: the first smallest element; ValueError on an empty sequence. *)
Fixpoint min_from (cur : Q) (l : list Q) : Q :=
  match l with
  | [] => cur
  | x :: l' => min_from (if Qlt_bool x cur then x else cur) l'
  end.

Definition py_min (l : list Q) : result Q :=
  match l with
  | [] => Raise ValueError
  | x :: l' => Ok (min_from x l')
  end.

(** [max(xs)]: the first largest element; ValueError on an empty sequence. *)
Fixpoint max_from (cur : Q) (l : list Q) : Q :=
  match l with
  | [] => cur
  | x :: l' => max_from (if Qlt_bool cur x then x else cur) l'
  end.

Definition py_max (l : list Q) : result Q :=
  match l with
  | [] => Raise ValueError
  | x :: l' => Ok (max_from x l')
  end.

(** [a / b]: true division, ZeroDivisionError when the divisor is zero. *)
Definition py_div (a b : Q) : result Q :=
  if Qeq_bool b 0 then Raise ZeroDivisionError else Ok (a / b).

(** [str(n)] for an int. *)
Definition str_int (z : Z) : string := NilZero.string_of_int (Z.to_int z).

(** A keyword argument annotated [float] may be passed an int (the default
    [highlight_power] is [1000]); the two print differently. *)
Inductive number : Type :=
| PyInt (z : Z)
| PyFloat (q : Q).

Definition num_val (n : number) : Q :=
  match n with
  | PyInt z => inject_Z z
  | PyFloat q => q
  end.

(* ------------------------------------------------------------------ *)
(** ** Data model *)

Record Region : Type := mkRegion {
  min_x : Q;
  min_y : Q;
  max_x : Q;
  max_y : Q
}.

Definition point : Type := (Q * Q)%type.

(** The parsed JSON reply: [data["labels"]] and [data["data"]]. *)
Record sensor_json : Type := mkSensorJson {
  labels : list string;
  data_rows : list (list Q)
}.

(** [xml.etree.ElementTree.Element]: tag, attributes, text, children. *)
#[local] Set Warnings "-register-all".
Inductive Element : Type :=
| mkElement (tag : string) (attrib : dict string) (text : option string)
            (children : list Element).

Definition tag_of (e : Element) : string :=
  match e with mkElement t _ _ _ => t end.
Definition attrib_of (e : Element) : dict string :=
  match e with mkElement _ a _ _ => a end.
Definition text_of (e : Element) : option string :=
  match e with mkElement _ _ t _ => t end.
Definition children_of (e : Element) : list Element :=
  match e with mkElement _ _ _ c => c end.

(** Number of elements with tag [t] in the tree rooted at [e]. *)
Fixpoint count_tag (t : string) (e : Element) : nat :=
  match e with
  | mkElement tg _ _ ch =>
      ((if String.eqb tg t then 1 else 0) + list_sum (map (count_tag t) ch))%nat
  end.

(* ------------------------------------------------------------------ *)
(** ** The world of a call: coin flips and printed lines *)

Record world : Type := mkWorld {
  coins : nat -> bool;     (* outcomes of successive random.choice([True, False]) *)
  drawn : nat;             (* how many have been consumed *)
  stdout : list string     (* lines printed so far *)
}.

Definition M (A : Type) : Type := world -> world * result A.

Definition ret {A} (a : A) : M A := fun w => (w, Ok a).

Definition bind {A B} (m : M A) (k : A -> M B) : M B :=
  fun w =>
    match m w with
    | (w', Ok a) => k a w'
    | (w', Raise e) => (w', Raise e)
    end.

Definition lift {A} (r : result A) : M A := fun w => (w, r).

Notation "x <-- m ;; k" := (bind m (fun x => k))
  (at level 61, m at next level, right associativity) : res_scope.

(** [print(line)] *)
Definition print (line : string) : M unit :=
  fun w => (mkWorld (coins w) (drawn w) (stdout w ++ [line]), Ok tt).

(** [random.choice([True, False])] *)
Definition random_choice : M bool :=
  fun w => (mkWorld (coins w) (S (drawn w)) (stdout w), Ok (coins w (drawn w))).

(** Truth value of an [Optional[str]] in an [if]: [None] and [""] are false. *)
Definition truthy (s : option string) : bool :=
  match s with
  | Some s' => negb (String.eqb s' "")
  | None => false
  end.

(* ------------------------------------------------------------------ *)
(** ** The program *)

Section Program.

(** Module-level switch [LOGARITHMIC] ([False] in the repository). *)
Variable LOGARITHMIC : bool.
(** [math.log] on a positive argument. *)
Variable ln : Q -> Q.
(** [str(x)] and [f"{x}"] for a float [x]. *)
Variable str_float : Q -> string.
(** [f"{x:0.2f}"] *)
Variable fmt_2f : Q -> string.
(** [tostring(svg).decode()] of ElementTree. *)
Variable tostring : Element -> string.

(** [math.log(value)]: ValueError outside the domain. *)
Definition log (value : Q) : result Q :=
  if Qle_bool value 0 then Raise ValueError else Ok (ln value).

(** [str(n)] / [f"{n}"] of an int-or-float argument. *)
Definition str_number (n : number) : string :=
  match n with
  | PyInt z => str_int z
  | PyFloat q => str_float q
  end.

(** [normalise] in exact arithmetic: the expression of source line 68,
    with the ZeroDivisionError of [/] on a zero divisor.  Which operands
    are combined, and when the call fails, is as in the source; the value
    is the unrounded one (see [Binary64.normalise] for the rounded one). *)
Definition normalise (value min_val max_val new_min new_max : Q) : result Q :=
  q <- py_div ((value - min_val) * (new_max - new_min)) (max_val - min_val) ;;
  Ok (new_min + q).

Definition scale_y (value : Q) : result Q :=
  if LOGARITHMIC then log value else Ok value.

Definition convert_sensor_data (data : sensor_json)
  : result (dict (list point)) :=
  let label := labels data in
  let sensor_data := data_rows data in
  label0 <- index label 0 ;;
  if negb (String.eqb label0 "Time") then
    Raise (Exception "Time not first element")
  else
    row0 <- index sensor_data 0 ;;
    let first_len := length row0 in
    if negb (forallb (fun sublist => Nat.eqb (length sublist) first_len)
                     sensor_data) then
      Raise (Exception "Data not all at the same length")
    else
      points <- mapM (fun i =>
                  mapM (fun p =>
                    x <- index p 0 ;;
                    v <- index p i ;;
                    y <- scale_y v ;;
                    Ok (x, y)) sensor_data)
                (seq 1 (first_len - 1)) ;;
      Ok (dict_of_items (combine (tl label) points)).

Definition get_data_region (data : dict (list point)) : result Region :=
  let all_points := flat_map (fun points => points) (values data) in
  mnx <- py_min (map fst all_points) ;;
  mxx <- py_max (map fst all_points) ;;
  mny <- py_min (map snd all_points) ;;
  mxy <- py_max (map snd all_points) ;;
  Ok (mkRegion mnx mny mxx mxy).

(** The tuple built for one point inside [normalise_data]. *)
Definition normalise_point (data_region draw_region : Region) (p : point)
  : result point :=
  x' <- normalise (fst p) (min_x data_region) (max_x data_region)
                  (min_x draw_region) (max_x draw_region) ;;
  y' <- normalise (snd p) (min_y data_region) (max_y data_region)
                  (min_y draw_region) (max_y draw_region) ;;
  Ok (x', y').

Definition normalise_data (data : dict (list point))
           (data_region draw_region : Region) : result (dict (list point)) :=
  items <- mapM (fun kv =>
             pts <- mapM (normalise_point data_region draw_region) (snd kv) ;;
             Ok (fst kv, pts)) data ;;
  Ok (dict_of_items items).

(** The drawing rectangle of [generate_svg]: the canvas minus the padding. *)
Definition draw_region_of (width height padding : Z) : Region :=
  mkRegion (inject_Z padding) (inject_Z padding)
           (inject_Z (width - padding)) (inject_Z (height - padding)).

(** The grey rectangle of [generate_svg] (either branch of
    [if invert_highlight]); the drawing rectangle holds ints. *)
Definition highlight_rect (width height padding : Z) (y_highlight : Q)
           (invert_highlight : bool) : Element :=
  if invert_highlight then
    mkElement "rect"
      [ ("x", str_int padding);
        ("y", str_float (inject_Z height - y_highlight));
        ("width", str_int ((width - padding) - padding));
        ("height", str_float (y_highlight - inject_Z padding));
        ("fill", "grey") ] None []
  else
    mkElement "rect"
      [ ("x", str_int padding);
        ("y", str_int padding);
        ("width", str_int ((width - padding) - padding));
        ("height", str_float (inject_Z (height - padding) - y_highlight));
        ("fill", "grey") ] None [].

(** One iteration of the final [for source in data] loop. *)
Definition polyline (height : Z) (foreground : string) (pts : list point)
  : Element :=
  let points_str :=
    map (fun x => fmt_2f (fst x) ++ "," ++ fmt_2f (inject_Z height - snd x)) pts in
  mkElement "polyline"
    [ ("points", String.concat " " points_str);
      ("stroke", foreground);
      ("fill", "none");
      ("stroke_width", "2") ] None [].

(** The statement
    [if only_source and <cond>: data = {only_source: data[only_source]}],
    which [generate_svg] runs twice: with [normalise_before_filter is False]
    before the extent is computed (source line 166) and with
    [normalise_before_filter is True] after normalisation (line 188). *)
Definition filter_source (data : dict (list point))
           (only_source : option string) (cond : bool)
  : result (dict (list point)) :=
  match only_source with
  | Some s =>
      if truthy only_source && cond then
        pts <- dict_getitem data s ;; Ok (dict_of_items [(s, pts)])
      else Ok data
  | None => Ok data
  end.

(** The second half of [generate_svg] (source lines 191 to 283): the element
    tree built from the normalised data and the mapped threshold.  The group
    is assembled child by child in the order of the SubElement calls and then
    placed under the root. *)
Definition svg_scene
           (data : dict (list point)) (width height padding : Z)
           (invert : bool) (highlight_power : number)
           (invert_highlight : bool) (only_source : option string)
           (rotate : bool) (y_highlight : Q) : result Element :=
  let foreground := if invert then "white" else "black" in
  let background := if invert then "black" else "white" in
  let svg_attrib :=
    [ ("width", str_int width); ("height", str_int height);
      ("xmlns", "http://www.w3.org/2000/svg") ] in
  let group_attrib :=
    if rotate then
      dict_set "transform" ("translate(0, " ++ str_int width ++ ") rotate(-90)") []
    else [] in
  let svg_attrib :=
    if rotate then
      dict_set "height" (str_int width) (dict_set "width" (str_int height) svg_attrib)
    else svg_attrib in
  let rect :=
    mkElement "rect"
      [ ("width", str_int width); ("height", str_int height);
        ("fill", background) ] None [] in
  let highlight := highlight_rect width height padding y_highlight invert_highlight in
  let title :=
    mkElement "text"
      [ ("x", "0"); ("y", "0"); ("fill", foreground);
        ("transform",
         "translate(" ++ str_float (inject_Z width / 2 - 200) ++ ", "
           ++ str_float (inject_Z padding / 2 + 10) ++ ") scale(2)") ]
      (Some match only_source with
            | None => "Power consumption"
            | Some s => "Power consumption (" ++ s ++ ")"
            end) [] in
  let x_axis :=
    mkElement "line"
      [ ("x1", str_int padding); ("y1", str_int (height - padding));
        ("x2", str_int (width - padding)); ("y2", str_int (height - padding));
        ("stroke", foreground) ] None [] in
  let xlabel :=
    mkElement "text"
      [ ("x", "0"); ("y", "0"); ("fill", foreground);
        ("transform",
         "translate(" ++ str_float (inject_Z width / 2 - 120) ++ ", "
           ++ str_float (inject_Z height - inject_Z padding / 2 + 10)
           ++ ") scale(2)") ]
      (Some "Time (Previous 24 hours)") [] in
  let y_axis :=
    mkElement "line"
      [ ("x1", str_int padding); ("y1", str_int padding);
        ("x2", str_int padding); ("y2", str_int (height - padding));
        ("stroke", foreground) ] None [] in
  let ylabel :=
    mkElement "text"
      [ ("x", "0"); ("y", "0"); ("font_size", "12"); ("fill", foreground);
        ("transform",
         "translate(" ++ str_float (inject_Z padding / 2 + 10) ++ ", "
           ++ str_float (inject_Z height / 2 + 100)
           ++ ") scale(2) rotate(-90)") ]
      (Some (if LOGARITHMIC then
               "Power (Logarithmic. Higher region "
                 ++ str_number highlight_power ++ "W)"
             else
               "Power (Higher region " ++ str_number highlight_power ++ "W)"))
      [] in
  polylines <- mapM (fun source =>
                 pts <- dict_getitem data source ;;
                 Ok (polyline height foreground pts)) (keys data) ;;
  let group :=
    mkElement "g" group_attrib None
      ([rect; highlight; title; x_axis; xlabel; y_axis; ylabel] ++ polylines) in
  Ok (mkElement "svg" svg_attrib None [group]).

(** [generate_svg] from the first use of the data (source line 166) on: no
    printing and no coin flip happens here.  [invert], [invert_highlight]
    and [only_source] are the local variables as the prologue of
    [generate_svg] leaves them. *)
Definition generate_svg_body
           (data : dict (list point)) (width height padding : Z)
           (invert : bool) (highlight_power : number)
           (invert_highlight : bool) (only_source : option string)
           (normalise_before_filter rotate : bool) : result Element :=
  data <- filter_source data only_source (negb normalise_before_filter) ;;
  data_region <- get_data_region data ;;
  let draw_region := draw_region_of width height padding in
  y_highlight <- (hp <- scale_y (num_val highlight_power) ;;
                  normalise hp (min_y data_region) (max_y data_region)
                            (min_y draw_region) (max_y draw_region)) ;;
  data <- normalise_data data data_region draw_region ;;
  data <- filter_source data only_source normalise_before_filter ;;
  svg_scene data width height padding invert highlight_power invert_highlight
            only_source rotate y_highlight.

(** [generate_svg] without the final [tostring(svg).decode()]: the
    prologue (the two coin flips for unpinned flags, then the check of the
    requested channel, source lines 154 to 164) followed by the body. *)
Definition generate_svg_tree
           (data : dict (list point)) (width height padding : Z)
           (invert : option bool) (highlight_power : number)
           (invert_highlight : option bool) (only_source : option string)
           (normalise_before_filter rotate : bool) : M Element :=
  invert <-- match invert with
             | None => random_choice
             | Some b => ret b
             end ;;
  invert_highlight <-- match invert_highlight with
                       | None => random_choice
                       | Some b => ret b
                       end ;;
  only_source <-- match only_source with
                  | Some s =>
                      if negb (dict_mem s data) then
                        _ <-- print ("Ignoring request to filter non-existent field: " ++ s) ;;
                        ret None
                      else ret (Some s)
                  | None => ret None
                  end ;;
  lift (generate_svg_body data width height padding invert highlight_power
                          invert_highlight only_source
                          normalise_before_filter rotate).

Definition generate_svg
           (data : dict (list point)) (width height padding : Z)
           (invert : option bool) (highlight_power : number)
           (invert_highlight : option bool) (only_source : option string)
           (normalise_before_filter rotate : bool) : M string :=
  svg <-- generate_svg_tree data width height padding invert highlight_power
                            invert_highlight only_source
                            normalise_before_filter rotate ;;
  ret (tostring svg).

(** One output artifact, as [get_iotawatt_sensor_data] and [generate_files]
    chain the two stages (fetching and file output left out):
    [generate_svg(convert_sensor_data(sensor_data), ...)]. *)
Definition render (sensor_data : sensor_json) (width height padding : Z)
           (invert : option bool) (highlight_power : number)
           (invert_highlight : option bool) (only_source : option string)
           (normalise_before_filter rotate : bool) : M string :=
  data <-- lift (convert_sensor_data sensor_data) ;;
  generate_svg data width height padding invert highlight_power
               invert_highlight only_source normalise_before_filter rotate.

End Program.

(* ------------------------------------------------------------------ *)
(** ** The affine mapping in binary64

    [normalise] and the tuple of [normalise_data] as Python evaluates them
    on [float] arguments (the annotated type): every operation of
    [new_min + (value - min_val) * (new_max - new_min) / (max_val - min_val)]
    rounds to nearest, overflow gives an infinity without an exception, and
    [/] raises ZeroDivisionError when the divisor compares equal to zero.
    The drawing rectangle holds ints in the source; they enter here as the
    floats they convert to (exactly, below 2^53). *)

Module Binary64.
Import Floats.
Local Open Scope float_scope.

Record Region : Type := mkRegion {
  min_x : float;
  min_y : float;
  max_x : float;
  max_y : float
}.

Definition normalise (value min_val max_val new_min new_max : float)
  : result float :=
  if (max_val - min_val =? 0) then Raise ZeroDivisionError
  else Ok (new_min
           + (value - min_val) * (new_max - new_min) / (max_val - min_val)).

(** The tuple built for one point inside [normalise_data]. *)
Definition normalise_point (data_region draw_region : Region)
           (p : float * float) : result (float * float) :=
  x' <- normalise (fst p) (min_x data_region) (max_x data_region)
                  (min_x draw_region) (max_x draw_region) ;;
  y' <- normalise (snd p) (min_y data_region) (max_y data_region)
                  (min_y draw_region) (max_y draw_region) ;;
  Ok (x', y').



End Binary64.

(* ------------------------------------------------------------------ *)
(** ** Sample instances of the parameters

    Stand-ins for the float formatters, [math.log] and ElementTree's
    serialiser, used only to run the model on concrete inputs. *)

Definition show_Q (q : Q) : string :=
  str_int (Qnum (Qred q)) ++ "/" ++ str_int (Zpos (Qden (Qred q))).

Definition show_attrib (a : dict string) : string :=
  String.concat "" (map (fun kv => " " ++ fst kv ++ "=" ++ snd kv) a).

Fixpoint show_element (e : Element) : string :=
  match e with
  | mkElement tg a tx ch =>
      "<" ++ tg ++ show_attrib a ++ ">"
          ++ match tx with Some t => t | None => "" end
          ++ String.concat "" (map show_element ch)
          ++ "</" ++ tg ++ ">"
  end.

(** The three-sample, two-channel reply of the specification's scenario. *)
Definition scenario_json : sensor_json :=
  mkSensorJson ["Time"; "A"; "B"]
               [ [0; 10; 200]; [1; 20; 300]; [2; 50; 400] ].

Definition scenario_data : dict (list point) :=
  [ ("A", [(0, 10); (1, 20); (2, 50)]);
    ("B", [(0, 200); (1, 300); (2, 400)]) ].

Definition world0 : world := mkWorld (fun _ => true) 0 [].

(* ------------------------------------------------------------------ *)
(** ** Vocabulary of the statements *)

(** The list [all_points] built inside [get_data_region]. *)
Definition all_points (data : dict (list point)) : list point :=
  flat_map (fun points => points) (values data).

(** [only_source] after the membership check at the top of [generate_svg]. *)
Definition effective_source {V} (data : dict V) (only_source : option string)
  : option string :=
  match only_source with
  | Some s => if dict_mem s data then Some s else None
  | None => None
  end.

(** The dict [generate_svg] hands to [get_data_region]: the requested
    channel alone when the first filter (source line 166) fires, the whole
    dict otherwise. *)
Definition extent_input (data : dict (list point)) (only_source : option string)
           (normalise_before_filter : bool) : dict (list point) :=
  match effective_source data only_source with
  | Some s =>
      if truthy (Some s) && negb normalise_before_filter then
        match dict_getitem data s with
        | Ok pts => [(s, pts)]
        | Raise _ => data
        end
      else data
  | None => data
  end.

(** A region with zero width or zero height. *)
Definition degenerate (r : Region) : Prop :=
  min_x r == max_x r \/ min_y r == max_y r.

(** [f] applied to the value of a successful computation. *)
Definition rmap {A B} (f : A -> B) (r : result A) : result B :=
  x <- r ;; Ok (f x).

(** The attributes that carry a colour. *)
Definition is_color_attr (k : string) : bool :=
  String.eqb k "fill" || String.eqb k "stroke".

Definition swap_bw (v : string) : string :=
  if String.eqb v "black" then "white"
  else if String.eqb v "white" then "black"
  else v.

(** Exchange black and white in every fill and stroke attribute. *)
Fixpoint recolor (e : Element) : Element :=
  match e with
  | mkElement tg a tx ch =>
      mkElement tg
        (map (fun kv => if is_color_attr (fst kv)
                        then (fst kv, swap_bw (snd kv)) else kv) a)
        tx (map recolor ch)
  end.

(** Forget every fill and stroke attribute. *)
Fixpoint strip_colors (e : Element) : Element :=
  match e with
  | mkElement tg a tx ch =>
      mkElement tg (filter (fun kv => negb (is_color_attr (fst kv))) a)
                tx (map strip_colors ch)
  end.

(** The grey rectangle: second child of the group under the root. *)
Definition band (doc : Element) : option Element :=
  match children_of doc with
  | g :: _ => nth_error (children_of g) 1
  | [] => None
  end.

(** The document with the grey rectangle taken out. *)
Definition drop_band (doc : Element) : Element :=
  match doc with
  | mkElement tg a tx (mkElement gt ga gx (c0 :: _ :: cs) :: rest) =>
      mkElement tg a tx (mkElement gt ga gx (c0 :: cs) :: rest)
  | _ => doc
  end.


(** What [if flag is None: flag = random.choice([True, False])] does to the
    world, and the value the flag ends with. *)
Definition flip (flag : option bool) (w : world) : world * bool :=
  match flag with
  | Some b => (w, b)
  | None => (mkWorld (coins w) (S (drawn w)) (stdout w), coins w (drawn w))
  end.

(** The world after the membership check on [only_source]: one line is
    printed when the requested channel is absent. *)
Definition noticed {V} (data : dict V) (only_source : option string)
           (w : world) : world :=
  match only_source with
  | Some s =>
      if dict_mem s data then w
      else mkWorld (coins w) (drawn w)
             (stdout w ++ ["Ignoring request to filter non-existent field: " ++ s])
  | None => w
  end.


(** The numeric first half of [generate_svg] (source lines 166 to 189): the
    dict that reaches the drawing loop and the mapped threshold. *)
Definition svg_numbers (LOGARITHMIC : bool) (ln : Q -> Q)
           (data : dict (list point)) (width height padding : Z)
           (highlight_power : number) (only_source : option string)
           (normalise_before_filter : bool)
  : result (dict (list point) * Q) :=
  d1 <- filter_source data only_source (negb normalise_before_filter) ;;
  data_region <- get_data_region d1 ;;
  let draw_region := draw_region_of width height padding in
  y_highlight <- (hp <- scale_y LOGARITHMIC ln (num_val highlight_power) ;;
                  normalise hp (min_y data_region) (max_y data_region)
                            (min_y draw_region) (max_y draw_region)) ;;
  d2 <- normalise_data d1 data_region draw_region ;;
  d3 <- filter_source d2 only_source normalise_before_filter ;;
  Ok (d3, y_highlight).


(** The inputs on which one of the two explicit checks of
    [convert_sensor_data] fires: a first label other than "Time", or a row
    whose length differs from the first row's. *)
Definition rejected (raw : sensor_json) : Prop :=
  match labels raw with
  | [] => False
  | label0 :: _ =>
      label0 <> "Time" \/
      match data_rows raw with
      | [] => False
      | row0 :: rows => ~ Forall (fun row => length row = length row0) rows
      end
  end.


(** Column [i] of the rows, paired with the time column, as the inner loop
    of [convert_sensor_data] collects it when [scale_y] is the identity. *)
Definition column (i : nat) (rows : list (list Q)) : list point :=
  map (fun p => (nth 0 p 0, nth i p 0)) rows.

(** A channel that never varies, a single reading, a reply with a repeated
    label, a reply with no channel, and a dict with an empty channel name. *)
Definition flat_data : dict (list point) := [ ("A", [(0, 5); (1, 5)]) ].

Definition single_data : dict (list point) := [ ("A", [(0, 5)]) ].

Definition repeated_json : sensor_json :=
  mkSensorJson ["Time"; "A"; "A"] [ [0; 1; 2; 3] ].

Definition no_channel_json : sensor_json :=
  mkSensorJson ["Time"] [ [0]; [1] ].

Definition surplus_json : sensor_json :=
  mkSensorJson ["Time"; "A"; "B"; "C"] [ [0; 10]; [1; 20] ].

Definition unnamed_data : dict (list point) :=
  [ ("", [(0, 1); (1, 2)]); ("A", [(0, 10); (1, 400)]) ].


(** The tuple [normalise_data] builds for a point when neither division
    fails. *)
Definition affine (data_region draw_region : Region) (p : point) : point :=
  (min_x draw_region
   + (fst p - min_x data_region) * (max_x draw_region - min_x draw_region)
     / (max_x data_region - min_x data_region),
   min_y draw_region
   + (snd p - min_y data_region) * (max_y draw_region - min_y draw_region)
     / (max_y data_region - min_y data_region)).

(** The children of the group element under the root. *)
Definition group_children (doc : Element) : list Element :=
  match children_of doc with
  | g :: _ => children_of g
  | [] => []
  end.


(** The value of a computation known to succeed. *)
Definition value_or {A} (default : A) (r : result A) : A :=
  match r with
  | Ok a => a
  | Raise _ => default
  end.

(** The document of the specification's scenario (threshold 300, both flags
    off), for a given filter and rotation. *)
Definition scenario_doc (only_source : option string) (rotate : bool)
  : Element :=
  value_or (mkElement "" [] None [])
    (snd (generate_svg_tree false (fun q => q) show_Q show_Q scenario_data
            1448 1072 50 (Some false) (PyInt 300) (Some false) only_source
            true rotate world0)).

Definition empty_channel_data : dict (list point) := [ ("A", []) ].


(* ------------------------------------------------------------------ *)
(** ** The device side: files, external programs, the display

    What the script does to its surroundings is recorded as a trace of
    actions: the calls it makes, in order.  The trace describes the runs in
    which every file-system call and external program returns normally; an
    [OSError] of [open], [shutil.copytree] or [subprocess.run] is outside
    the model, so the only exceptions here are those of the rendering core.
    The directory listing of [os.walk], the answers of [os.path.exists],
    the location of the script and the reply of the energy monitor are
    parameters. *)

Inductive action : Type :=
| Rmtree (path : string)             (* shutil.rmtree(path, ignore_errors=True) *)
| Makedirs (path : string)           (* os.makedirs(path, exist_ok=True) *)
| Open (path : string)               (* open(path, "w"): create or truncate *)
| Write (path content : string)      (* f.write(content) *)
| Close (path : string)              (* leaving the with block *)
| Copytree (source dest : string)    (* shutil.copytree(source, dest) *)
| Run (argv : list string)           (* subprocess.run(argv) *)
| Sleep (seconds : Z).               (* time.sleep(seconds) *)

Record machine : Type := mkMachine {
  mworld : world;          (* coins and printed lines *)
  actions : list action    (* what has been done so far, oldest first *)
}.

Definition IO (A : Type) : Type := machine -> machine * result A.

Definition io_ret {A} (a : A) : IO A := fun mc => (mc, Ok a).

Definition io_bind {A B} (m : IO A) (k : A -> IO B) : IO B :=
  fun mc =>
    match m mc with
    | (mc', Ok a) => k a mc'
    | (mc', Raise e) => (mc', Raise e)
    end.

Notation "x <~ m ;; k" := (io_bind m (fun x => k))
  (at level 61, m at next level, right associativity) : res_scope.

(** Perform one action (it returns normally, see above). *)
Definition act (a : action) : IO unit :=
  fun mc => (mkMachine (mworld mc) (actions mc ++ [a]), Ok tt).

(** Run a computation of the rendering core. *)
Definition run_M {A} (m : M A) : IO A :=
  fun mc =>
    let (w', r) := m (mworld mc) in
    (mkMachine w' (actions mc), r).

(** A [for] loop whose body may raise. *)
Fixpoint io_for {A} (l : list A) (body : A -> IO unit) : IO unit :=
  match l with
  | [] => io_ret tt
  | a :: l' => _ <~ body a ;; io_for l' body
  end.

(** [s.endswith(suffix)] *)
Definition endswith (s suffix : string) : bool :=
  let n := String.length s in
  let m := String.length suffix in
  (m <=? n)%nat && String.eqb (substring (n - m) m s) suffix.

(** [with open(path, "w") as f: f.write(content)], where evaluating
    [content] may raise: the file is opened first and closed in either
    case. *)
Definition with_open_write (path : string) (content : M string) : IO unit :=
  _ <~ act (Open path) ;;
  fun mc =>
    match run_M content mc with
    | (mc', Ok s) => (_ <~ act (Write path s) ;; act (Close path)) mc'
    | (mc', Raise e) =>
        (mkMachine (mworld mc') (actions mc' ++ [Close path]), Raise e)
    end.

Section Device.

Variable LOGARITHMIC : bool.
Variable ln : Q -> Q.
Variables str_float fmt_2f : Q -> string.
Variable tostring : Element -> string.
(** [get_script_dir()] *)
Variable script_dir : string.
(** The parsed reply of the monitor to the query of
    [get_iotawatt_sensor_data]. *)
Variable sensor_data : sensor_json.
(** [os.walk(top)]: (root, dirs, files) for each directory. *)
Variable os_walk : string -> list (string * list string * list string).
(** [os.path.exists(path)], given what has been done so far. *)
Variable path_exists : list action -> string -> bool.

(** [get_iotawatt_sensor_data()], the two HTTP requests replaced by the
    reply to the second. *)
Definition get_iotawatt_sensor_data : result (dict (list point)) :=
  convert_sensor_data LOGARITHMIC ln sensor_data.

Definition convert_svg_to_png (svg_file png_file : string) : IO unit :=
  _ <~ (fun mc =>
          if negb (path_exists (actions mc) "/tmp/rsvg-convert-lib") then
            let source := script_dir ++ "/../external/rsvg-convert-lib" in
            let dest := "/tmp/rsvg-convert-lib" in
            act (Copytree source dest) mc
          else (mc, Ok tt)) ;;
  act (Run ["/tmp/rsvg-convert-lib/rsvg-convert"; "-o"; png_file; svg_file]).

Definition generate_files (output_dir : string) : IO unit :=
  data <~ (fun mc => (mc, get_iotawatt_sensor_data)) ;;
  _ <~ act (Rmtree output_dir) ;;
  _ <~ act (Makedirs output_dir) ;;
  let base_name := output_dir ++ "/all" in
  let svg_file := base_name ++ ".svg" in
  let png_file := base_name ++ ".png" in
  _ <~ with_open_write svg_file
         (generate_svg LOGARITHMIC ln str_float fmt_2f tostring data
                       1448 1072 50 None (PyInt 1000) None None true true) ;;
  _ <~ convert_svg_to_png svg_file png_file ;;
  io_for (keys data) (fun source =>
    let base_name := output_dir ++ "/source_" ++ source in
    let svg_file := base_name ++ ".svg" in
    let png_file := base_name ++ ".png" in
    _ <~ with_open_write svg_file
           (generate_svg LOGARITHMIC ln str_float fmt_2f tostring data
                         1448 1072 50 None (PyInt 1000) None (Some source)
                         true true) ;;
    convert_svg_to_png svg_file png_file).

(** [sleep(duration)]: the branch under [if False] is dead. *)
Definition sleep (duration : Z) : IO unit :=
  act (Sleep duration).

Definition display_file (filename : string) : IO unit :=
  _ <~ run_M (print ("Displaying " ++ filename)) ;;
  act (Run ["fbink"; "-c"; "-g";
            "file=" ++ filename ++ ",w=1072,halign=center,valign=center"]).

Definition display_files (output_dir : string) : IO unit :=
  io_for (os_walk output_dir) (fun entry =>
    let root := fst (fst entry) in
    let files := snd entry in
    io_for files (fun f =>
      if endswith f ".png" && negb (String.eqb f "all.png") then
        _ <~ display_file (root ++ "all.png") ;;
        _ <~ sleep 15 ;;
        _ <~ display_file (root ++ f) ;;
        sleep 15
      else io_ret tt)).

End Device.

(** The channel images [display_files] cycles through in one directory. *)
Definition shown (files : list string) : list string :=
  filter (fun f => endswith f ".png" && negb (String.eqb f "all.png")) files.

(** The trace of one directory of [display_files]. *)
Definition show_trace (root : string) (files : list string) : list action :=
  flat_map (fun f =>
    [ Run ["fbink"; "-c"; "-g";
           "file=" ++ (root ++ "all.png") ++ ",w=1072,halign=center,valign=center"];
      Sleep 15;
      Run ["fbink"; "-c"; "-g";
           "file=" ++ (root ++ f) ++ ",w=1072,halign=center,valign=center"];
      Sleep 15 ]) (shown files).

Definition show_lines (root : string) (files : list string) : list string :=
  flat_map (fun f => [ "Displaying " ++ (root ++ "all.png");
                       "Displaying " ++ (root ++ f) ]) (shown files).

(** The machine after printing [lines] and performing [acts]. *)
Definition extend (mc : machine) (lines : list string) (acts : list action)
  : machine :=
  mkMachine (mkWorld (coins (mworld mc)) (drawn (mworld mc))
                     (stdout (mworld mc) ++ lines))
            (actions mc ++ acts).

Definition machine0 : machine := mkMachine world0 [].

(** A directory holding the all-channels image only. *)
Definition lonely_walk (top : string)
  : list (string * list string * list string) :=
  [ (top, [], ["all.png"; "all.svg"]) ].

(* ------------------------------------------------------------------ *)
(** * Properties *)

(** ** Generic facts about the monads and containers *)

Lemma mapM_length {A B} (f : A -> result B) (l : list A) (bs : list B) :
  mapM f l = Ok bs -> length bs = length l.
Proof.
  revert bs; induction l as [|a l IH]; intros bs H; simpl in H.
  - now inversion H.
  - destruct (f a) as [b|e]; simpl in H; [|discriminate].
    destruct (mapM f l) as [bs'|e]; simpl in H; [|discriminate].
    inversion H; subst; simpl; f_equal; now apply IH.
Qed.

Lemma mapM_ok {A B} (f : A -> result B) (l : list A) :
  (forall a, In a l -> exists b, f a = Ok b) -> exists bs, mapM f l = Ok bs.
Proof.
  induction l as [|a l IH]; intros H; simpl.
  - now exists [].
  - destruct (H a (or_introl eq_refl)) as [b ->]; simpl.
    destruct IH as [bs ->]; [intros; apply H; now right|].
    simpl; now eexists.
Qed.

Lemma mapM_raise {A B} (f : A -> result B) (l : list A) (e : exn) :
  (forall a, In a l -> f a = Raise e) -> l <> [] -> mapM f l = Raise e.
Proof.
  destruct l as [|a l]; intros H Hne; [congruence|].
  simpl; now rewrite (H a (or_introl eq_refl)).
Qed.

Lemma dict_mem_In {V} (k : string) (d : dict V) :
  dict_mem k d = true <-> In k (keys d).
Proof.
  induction d as [|[k' v] d IH]; simpl.
  - split; [discriminate|tauto].
  - destruct (String.eqb_spec k k') as [->|Hne].
    + split; auto.
    + rewrite IH; split; [now right|intros [E|H]; congruence].
Qed.

Lemma dict_getitem_mem {V} (k : string) (d : dict V) :
  dict_mem k d = true -> exists v, dict_getitem d k = Ok v /\ In (k, v) d.
Proof.
  induction d as [|[k' v] d IH]; simpl; [discriminate|].
  destruct (String.eqb_spec k k') as [->|Hne]; intros H.
  - exists v; auto.
  - destruct (IH H) as (v' & E & I); exists v'; auto.
Qed.

Lemma dict_set_fresh {V} (k : string) (v : V) (d : dict V) :
  ~ In k (keys d) -> dict_set k v d = (d ++ [(k, v)])%list.
Proof.
  induction d as [|[k' v'] d IH]; simpl; intros H; [reflexivity|].
  destruct (String.eqb_spec k k') as [->|Hne]; [tauto|].
  now rewrite IH by tauto.
Qed.

Lemma dict_of_items_app_wf {V} (items : list (string * V)) (d : dict V) :
  NoDup (keys (d ++ items)%list) ->
  fold_left (fun d kv => dict_set (fst kv) (snd kv) d) items d = (d ++ items)%list.
Proof.
  revert d; induction items as [|[k v] items IH]; intros d H; simpl.
  - now rewrite app_nil_r.
  - assert (Hk : ~ In k (keys d)).
    { unfold keys in *. rewrite map_app in H. simpl in H.
      apply NoDup_remove_2 in H. intros I; apply H, in_or_app; now left. }
    rewrite dict_set_fresh by exact Hk.
    rewrite IH; rewrite <- app_assoc; simpl; auto.
Qed.

(** A comprehension over items with pairwise distinct keys is the item
    list itself. *)
Lemma dict_of_items_wf {V} (items : list (string * V)) :
  dict_wf items -> dict_of_items items = items.
Proof.
  intros H; unfold dict_of_items.
  now rewrite dict_of_items_app_wf.
Qed.

(** ** Facts about [min] and [max] *)

Lemma Qlt_bool_true (a b : Q) : Qlt_bool a b = true <-> a < b.
Proof.
  unfold Qlt_bool; rewrite negb_true_iff.
  split; intros H.
  - apply Qnot_le_lt; intros L; apply Qle_bool_iff in L; congruence.
  - destruct (Qle_bool b a) eqn:E; [|reflexivity].
    apply Qle_bool_iff in E; exfalso; now apply (Qlt_not_le a b).
Qed.

Lemma Qlt_bool_false (a b : Q) : Qlt_bool a b = false <-> b <= a.
Proof.
  unfold Qlt_bool; rewrite negb_false_iff; apply Qle_bool_iff.
Qed.

Lemma min_from_lower (l : list Q) (cur : Q) :
  min_from cur l <= cur /\ forall x, In x l -> min_from cur l <= x.
Proof.
  revert cur; induction l as [|y l IH]; intros cur; simpl.
  - split; [apply Qle_refl|tauto].
  - destruct (Qlt_bool y cur) eqn:E.
    + apply Qlt_bool_true in E. destruct (IH y) as [H1 H2]. split.
      * eapply Qle_trans; [exact H1|now apply Qlt_le_weak].
      * intros x [<-|I]; auto.
    + apply Qlt_bool_false in E. destruct (IH cur) as [H1 H2]. split; auto.
      intros x [<-|I]; auto. eapply Qle_trans; eauto.
Qed.

Lemma min_from_attained (l : list Q) (cur : Q) :
  In (min_from cur l) (cur :: l).
Proof.
  revert cur; induction l as [|y l IH]; intros cur; simpl; [auto|].
  destruct (Qlt_bool y cur); destruct (IH y) as [E|I], (IH cur) as [E'|I'];
    simpl in *; auto.
Qed.

Lemma max_from_upper (l : list Q) (cur : Q) :
  cur <= max_from cur l /\ forall x, In x l -> x <= max_from cur l.
Proof.
  revert cur; induction l as [|y l IH]; intros cur; simpl.
  - split; [apply Qle_refl|tauto].
  - destruct (Qlt_bool cur y) eqn:E.
    + apply Qlt_bool_true in E. destruct (IH y) as [H1 H2]. split.
      * eapply Qle_trans; [apply Qlt_le_weak; exact E|exact H1].
      * intros x [<-|I]; auto.
    + apply Qlt_bool_false in E. destruct (IH cur) as [H1 H2]. split; auto.
      intros x [<-|I]; auto. eapply Qle_trans; eauto.
Qed.

Lemma max_from_attained (l : list Q) (cur : Q) :
  In (max_from cur l) (cur :: l).
Proof.
  revert cur; induction l as [|y l IH]; intros cur; simpl; [auto|].
  destruct (Qlt_bool cur y); destruct (IH y) as [E|I], (IH cur) as [E'|I'];
    simpl in *; auto.
Qed.

Lemma py_min_spec (l : list Q) :
  l <> [] ->
  exists m, py_min l = Ok m /\ In m l /\ forall x, In x l -> m <= x.
Proof.
  destruct l as [|c l]; [congruence|intros _].
  exists (min_from c l); split; [reflexivity|split].
  - apply min_from_attained.
  - destruct (min_from_lower l c) as [H1 H2]; intros x [<-|I]; auto.
Qed.

Lemma py_max_spec (l : list Q) :
  l <> [] ->
  exists m, py_max l = Ok m /\ In m l /\ forall x, In x l -> x <= m.
Proof.
  destruct l as [|c l]; [congruence|intros _].
  exists (max_from c l); split; [reflexivity|split].
  - apply max_from_attained.
  - destruct (max_from_upper l c) as [H1 H2]; intros x [<-|I]; auto.
Qed.

(** ** The data extent *)

Lemma all_points_In (data : dict (list point)) (p : point) :
  In p (all_points data) <-> exists k pts, In (k, pts) data /\ In p pts.
Proof.
  unfold all_points, values; rewrite in_flat_map; split.
  - intros (pts & I & Ip). apply in_map_iff in I as ([k pts'] & E & I).
    simpl in E; subst. now exists k, pts.
  - intros (k & pts & I & Ip). exists pts; split; auto.
    apply in_map_iff. now exists (k, pts).
Qed.

Lemma all_points_nonempty (data : dict (list point)) :
  data <> [] -> Forall (fun kv => snd kv <> []) data -> all_points data <> [].
Proof.
  destruct data as [|[k pts] data]; [congruence|].
  intros _ H; inversion H as [|? ? Hp _]; subst; simpl in Hp.
  destruct pts as [|p pts]; [congruence|].
  unfold all_points; simpl; discriminate.
Qed.

(** What [get_data_region] returns on any dict with at least one point. *)
Lemma get_data_region_spec (data : dict (list point)) :
  all_points data <> [] ->
  exists r, get_data_region data = Ok r /\
    (forall p, In p (all_points data) ->
       min_x r <= fst p /\ fst p <= max_x r /\
       min_y r <= snd p /\ snd p <= max_y r) /\
    (exists p, In p (all_points data) /\ fst p = min_x r) /\
    (exists p, In p (all_points data) /\ fst p = max_x r) /\
    (exists p, In p (all_points data) /\ snd p = min_y r) /\
    (exists p, In p (all_points data) /\ snd p = max_y r).
Proof.
  intros Hne. unfold get_data_region. fold (all_points data).
  assert (Hx : map fst (all_points data) <> [])
    by (destruct (all_points data); [congruence|discriminate]).
  assert (Hy : map snd (all_points data) <> [])
    by (destruct (all_points data); [congruence|discriminate]).
  destruct (py_min_spec _ Hx) as (mnx & -> & Imnx & Lmnx).
  destruct (py_max_spec _ Hx) as (mxx & -> & Imxx & Lmxx).
  destruct (py_min_spec _ Hy) as (mny & -> & Imny & Lmny).
  destruct (py_max_spec _ Hy) as (mxy & -> & Imxy & Lmxy).
  simpl. eexists; split; [reflexivity|]; simpl.
  split; [|repeat split].
  - intros p Ip. repeat split.
    + apply Lmnx, in_map, Ip.
    + apply Lmxx, in_map, Ip.
    + apply Lmny, in_map, Ip.
    + apply Lmxy, in_map, Ip.
  - apply in_map_iff in Imnx as (p & E & I); now exists p.
  - apply in_map_iff in Imxx as (p & E & I); now exists p.
  - apply in_map_iff in Imny as (p & E & I); now exists p.
  - apply in_map_iff in Imxy as (p & E & I); now exists p.
Qed.

Lemma get_data_region_empty (data : dict (list point)) :
  all_points data = [] -> get_data_region data = Raise ValueError.
Proof.
  intros E; unfold get_data_region; fold (all_points data); now rewrite E.
Qed.

(** C1: on a snapshot with at least one series, each with at least one
    sample, [get_data_region] returns a Region; every sample of every series
    lies between its minima and maxima on both axes, and each of the four
    bounds is the coordinate of some sample. *)
Theorem get_data_region_tight (data : dict (list point)) :
  data <> [] ->
  Forall (fun kv => snd kv <> []) data ->
  exists r, get_data_region data = Ok r /\
    (forall k pts p, In (k, pts) data -> In p pts ->
       min_x r <= fst p /\ fst p <= max_x r /\
       min_y r <= snd p /\ snd p <= max_y r) /\
    (exists k pts p, In (k, pts) data /\ In p pts /\ fst p = min_x r) /\
    (exists k pts p, In (k, pts) data /\ In p pts /\ fst p = max_x r) /\
    (exists k pts p, In (k, pts) data /\ In p pts /\ snd p = min_y r) /\
    (exists k pts p, In (k, pts) data /\ In p pts /\ snd p = max_y r).
Proof.
  intros Hne Hall.
  destruct (get_data_region_spec data (all_points_nonempty data Hne Hall))
    as (r & E & Hb & (p1 & I1 & E1) & (p2 & I2 & E2) & (p3 & I3 & E3)
          & (p4 & I4 & E4)).
  exists r; split; [exact E|]. split; [|repeat split].
  - intros k pts p I Ip. apply Hb, all_points_In. now exists k, pts.
  - apply all_points_In in I1 as (k & pts & ? & ?). now exists k, pts, p1.
  - apply all_points_In in I2 as (k & pts & ? & ?). now exists k, pts, p2.
  - apply all_points_In in I3 as (k & pts & ? & ?). now exists k, pts, p3.
  - apply all_points_In in I4 as (k & pts & ? & ?). now exists k, pts, p4.
Qed.

Lemma get_data_region_tight_witness :
  exists r, get_data_region scenario_data = Ok r /\
    (forall k pts p, In (k, pts) scenario_data -> In p pts ->
       min_x r <= fst p /\ fst p <= max_x r /\
       min_y r <= snd p /\ snd p <= max_y r) /\
    (exists k pts p, In (k, pts) scenario_data /\ In p pts /\ fst p = min_x r) /\
    (exists k pts p, In (k, pts) scenario_data /\ In p pts /\ fst p = max_x r) /\
    (exists k pts p, In (k, pts) scenario_data /\ In p pts /\ snd p = min_y r) /\
    (exists k pts p, In (k, pts) scenario_data /\ In p pts /\ snd p = max_y r).
Proof.
  apply (get_data_region_tight scenario_data).
  - discriminate.
  - repeat constructor; discriminate.
Defined.

Example get_data_region_scenario :
  get_data_region scenario_data = Ok (mkRegion 0 10 2 400).
Proof. reflexivity. Qed.

(** ** The affine mapping *)

Lemma py_div_ok (a b : Q) : ~ b == 0 -> py_div a b = Ok (a / b).
Proof.
  intros H; unfold py_div.
  destruct (Qeq_bool b 0) eqn:E; [|reflexivity].
  apply Qeq_bool_iff in E; contradiction.
Qed.

Lemma py_div_zero (a b : Q) : b == 0 -> py_div a b = Raise ZeroDivisionError.
Proof.
  intros H; unfold py_div. apply Qeq_bool_iff in H; now rewrite H.
Qed.

Lemma normalise_ok (value min_val max_val new_min new_max : Q) :
  ~ min_val == max_val ->
  normalise value min_val max_val new_min new_max =
  Ok (new_min + (value - min_val) * (new_max - new_min) / (max_val - min_val)).
Proof.
  intros H; unfold normalise. rewrite py_div_ok; [reflexivity|].
  intros E; apply H; lra.
Qed.

Lemma normalise_degenerate (value min_val max_val new_min new_max : Q) :
  min_val == max_val ->
  normalise value min_val max_val new_min new_max = Raise ZeroDivisionError.
Proof.
  intros H; unfold normalise. rewrite py_div_zero; [reflexivity|lra].
Qed.

(** *** The corners in binary64 *)

Section Binary64Corners.

Import Floats.
Local Open Scope float_scope.












End Binary64Corners.

(** ** Rendering: the prologue and the body of [generate_svg] *)

Lemma mapM_first_raise {A B} (f : A -> result B) (l : list A) (e : exn) :
  (forall a, In a l -> (exists b, f a = Ok b) \/ f a = Raise e) ->
  (exists a, In a l /\ f a = Raise e) ->
  mapM f l = Raise e.
Proof.
  induction l as [|a l IH]; intros Hall (a0 & I0 & E0); [destruct I0|].
  simpl. destruct (Hall a (or_introl eq_refl)) as [[b Eb]|Er].
  - rewrite Eb; simpl. rewrite IH; [reflexivity| |].
    + intros; apply Hall; now right.
    + destruct I0 as [<-|I0]; [congruence|]. now exists a0.
  - now rewrite Er.
Qed.

Lemma dict_getitem_keys {V} (d : dict V) (k : string) :
  In k (keys d) -> exists v, dict_getitem d k = Ok v.
Proof.
  intros I. apply dict_mem_In in I.
  destruct (dict_getitem_mem k d I) as (v & E & _). now exists v.
Qed.

Section Rendering.

Variable LOGARITHMIC : bool.
Variable ln : Q -> Q.
Variables str_float fmt_2f : Q -> string.
Variable tostring : Element -> string.

Local Abbreviation svg_body := (generate_svg_body LOGARITHMIC ln str_float fmt_2f).
Local Abbreviation svg_tree := (generate_svg_tree LOGARITHMIC ln str_float fmt_2f).
Local Abbreviation svg := (generate_svg LOGARITHMIC ln str_float fmt_2f tostring).

(** The first filter leaves exactly [extent_input]. *)
Lemma filter_source_extent (data : dict (list point)) (os : option string)
      (nbf : bool) :
  filter_source data (effective_source data os) (negb nbf)
  = Ok (extent_input data os nbf).
Proof.
  unfold filter_source, extent_input.
  destruct (effective_source data os) as [s|] eqn:E; [|reflexivity].
  destruct (truthy (Some s) && negb nbf); [|reflexivity].
  assert (M : dict_mem s data = true).
  { destruct os as [s'|]; simpl in E; [|discriminate].
    destruct (dict_mem s' data) eqn:M'; inversion E; subst; exact M'. }
  destruct (dict_getitem_mem s data M) as (pts & -> & _). reflexivity.
Qed.

(** With pinned flags the prologue flips no coin; it prints one line
    exactly when the requested channel is absent. *)
Lemma generate_svg_tree_pinned (data : dict (list point))
      (width height padding : Z) (i : bool) (hp : number) (ih : bool)
      (os : option string) (nbf rot : bool) (w : world) :
  svg_tree data width height padding (Some i) hp (Some ih) os nbf rot w
  = (match os with
     | Some s =>
         if dict_mem s data then w
         else mkWorld (coins w) (drawn w)
                (stdout w
                   ++ ["Ignoring request to filter non-existent field: " ++ s])
     | None => w
     end,
     svg_body data width height padding i hp ih (effective_source data os)
              nbf rot).
Proof.
  unfold generate_svg_tree, bind, ret, lift, print; cbn beta iota.
  destruct os as [s|]; cbn [effective_source]; [|reflexivity].
  destruct (dict_mem s data); reflexivity.
Qed.

(** Whatever the flags, the outcome of [generate_svg_tree] is that of the
    body for some pair of resolved flags, pinned flags being respected. *)
Lemma generate_svg_tree_body (data : dict (list point))
      (width height padding : Z) (invert : option bool) (hp : number)
      (invert_highlight : option bool) (os : option string) (nbf rot : bool)
      (w : world) :
  exists i ih,
    (forall b, invert = Some b -> i = b) /\
    (forall b, invert_highlight = Some b -> ih = b) /\
    snd (svg_tree data width height padding invert hp invert_highlight os
                  nbf rot w)
    = svg_body data width height padding i hp ih (effective_source data os)
               nbf rot.
Proof.
  unfold generate_svg_tree, bind, ret, lift, print, random_choice;
    cbn beta iota.
  destruct invert as [i|], invert_highlight as [ih|]; cbn beta iota;
    eexists; eexists; (split; [|split]);
    try (intros b E; inversion E; reflexivity);
    try (intros b E; discriminate E);
    (destruct os as [s|]; cbn [effective_source];
     [destruct (dict_mem s data)|]; reflexivity).
Qed.

Lemma generate_svg_result (data : dict (list point))
      (width height padding : Z) (invert : option bool) (hp : number)
      (invert_highlight : option bool) (os : option string) (nbf rot : bool)
      (w : world) :
  snd (svg data width height padding invert hp invert_highlight os nbf rot w)
  = (e <- snd (svg_tree data width height padding invert hp invert_highlight
                        os nbf rot w) ;;
     Ok (tostring e)).
Proof.
  unfold generate_svg, bind, ret.
  destruct (generate_svg_tree _ _ _ _ _ _ _ _ _ _ _ _ _ _ w) as [w' [e|x]];
    reflexivity.
Qed.


(** *** Degenerate extents *)

Lemma normalise_point_degenerate (r dr : Region) (p : point) :
  degenerate r ->
  normalise_point r dr p = Raise ZeroDivisionError.
Proof.
  intros D. unfold normalise_point.
  destruct (Qeq_dec (min_x r) (max_x r)) as [Ex|Nx].
  - now rewrite normalise_degenerate.
  - rewrite normalise_ok by exact Nx. cbn [rbind].
    destruct D as [Ex|Ey]; [contradiction|].
    now rewrite normalise_degenerate.
Qed.

Lemma normalise_data_degenerate (d : dict (list point)) (r dr : Region) :
  all_points d <> [] -> degenerate r ->
  normalise_data d r dr = Raise ZeroDivisionError.
Proof.
  intros Hne D. unfold normalise_data.
  rewrite (mapM_first_raise _ d ZeroDivisionError); [reflexivity| |].
  - intros [k pts] _; simpl. destruct pts as [|p pts].
    + left; now eexists.
    + right. rewrite (mapM_raise _ (p :: pts) ZeroDivisionError);
        [reflexivity| |discriminate].
      intros; now apply normalise_point_degenerate.
  - destruct (all_points d) as [|p l] eqn:E; [congruence|].
    assert (I : In p (all_points d)) by (rewrite E; now left).
    apply all_points_In in I as (k & pts & I & Ip).
    exists (k, pts); split; [exact I|]. simpl.
    rewrite (mapM_raise _ pts ZeroDivisionError); [reflexivity| |].
    + intros; now apply normalise_point_degenerate.
    + destruct pts; [destruct Ip|discriminate].
Qed.

Lemma get_data_region_ok_nonempty (d : dict (list point)) (r : Region) :
  get_data_region d = Ok r -> all_points d <> [].
Proof.
  intros E N. rewrite (get_data_region_empty d N) in E. discriminate.
Qed.

Lemma scale_y_ok (v : Q) :
  LOGARITHMIC = false \/ 0 < v ->
  exists v', scale_y LOGARITHMIC ln v = Ok v'.
Proof.
  unfold scale_y, log. intros [->|P]; [now eexists|].
  destruct LOGARITHMIC; [|now eexists].
  destruct (Qle_bool v 0) eqn:E; [|now eexists].
  apply Qle_bool_iff in E. exfalso. now apply (Qlt_not_le 0 v).
Qed.

Lemma generate_svg_body_degenerate (data : dict (list point))
      (width height padding : Z) (i : bool) (hp : number) (ih : bool)
      (os : option string) (nbf rot : bool) (r : Region) :
  LOGARITHMIC = false \/ 0 < num_val hp ->
  get_data_region (extent_input data os nbf) = Ok r ->
  degenerate r ->
  svg_body data width height padding i hp ih (effective_source data os) nbf rot
  = Raise ZeroDivisionError.
Proof.
  intros Hs Hr D. unfold generate_svg_body.
  rewrite filter_source_extent; cbn [rbind].
  rewrite Hr; cbn [rbind].
  destruct (scale_y_ok _ Hs) as (v & ->); cbn [rbind].
  destruct (Qeq_dec (min_y r) (max_y r)) as [Ey|Ny].
  - now rewrite normalise_degenerate.
  - rewrite normalise_ok by exact Ny; cbn [rbind].
    rewrite normalise_data_degenerate; [reflexivity| |exact D].
    eapply get_data_region_ok_nonempty; eauto.
Qed.

(** C3 (as the code has it): when the extent [generate_svg] computes is
    degenerate on some axis, the call ends with the ZeroDivisionError that
    the division inside [normalise] raises; nothing checks the extent
    beforehand. *)
Theorem generate_svg_degenerate (data : dict (list point))
        (width height padding : Z) (invert : option bool) (hp : number)
        (invert_highlight : option bool) (os : option string)
        (nbf rot : bool) (w : world) (r : Region) :
  LOGARITHMIC = false \/ 0 < num_val hp ->
  get_data_region (extent_input data os nbf) = Ok r ->
  degenerate r ->
  snd (svg data width height padding invert hp invert_highlight os nbf rot w)
  = Raise ZeroDivisionError.
Proof.
  intros Hs Hr D. rewrite generate_svg_result.
  destruct (generate_svg_tree_body data width height padding invert hp
              invert_highlight os nbf rot w) as (i & ih & _ & _ & ->).
  now rewrite (generate_svg_body_degenerate _ _ _ _ _ _ _ _ _ _ r).
Qed.

(** *** Non-degenerate extents: the call succeeds *)

Lemma normalise_point_ok (r dr : Region) (p : point) :
  ~ degenerate r -> exists q, normalise_point r dr p = Ok q.
Proof.
  intros N. unfold normalise_point.
  rewrite normalise_ok by (intros E; apply N; now left); cbn [rbind].
  rewrite normalise_ok by (intros E; apply N; now right); cbn [rbind].
  now eexists.
Qed.

Lemma mapM_fst {A} (f : string * A -> result (string * A))
      (l : list (string * A)) (l' : list (string * A)) :
  (forall a b, f a = Ok b -> fst b = fst a) ->
  mapM f l = Ok l' -> keys l' = keys l.
Proof.
  intros Hf. revert l'; induction l as [|a l IH]; intros l' H; simpl in H.
  - now inversion H.
  - destruct (f a) as [b|e] eqn:Eb; simpl in H; [|discriminate].
    destruct (mapM f l) as [bs|e]; simpl in H; [|discriminate].
    inversion H; subst; simpl. f_equal; [now apply Hf|now apply IH].
Qed.

Lemma normalise_data_ok (d : dict (list point)) (r dr : Region) :
  dict_wf d -> ~ degenerate r ->
  exists d2, normalise_data d r dr = Ok d2 /\ keys d2 = keys d.
Proof.
  intros W N. unfold normalise_data.
  destruct (mapM_ok
              (fun kv : string * list point =>
                 pts <- mapM (normalise_point r dr) (snd kv) ;;
                 Ok (fst kv, pts)) d) as (items & E).
  { intros [k pts] _; simpl.
    destruct (mapM_ok (normalise_point r dr) pts) as (qs & ->);
      [intros; now apply normalise_point_ok|]. simpl; now eexists. }
  rewrite E; cbn [rbind].
  assert (K : keys items = keys d).
  { eapply mapM_fst; [|exact E]. intros [k pts] b; simpl.
    destruct (mapM (normalise_point r dr) pts); simpl; intros H;
      inversion H; reflexivity. }
  rewrite dict_of_items_wf by (unfold dict_wf; now rewrite K).
  now exists items.
Qed.

Lemma polylines_ok (d : dict (list point)) (height : Z) (fg : string) :
  exists polys,
    mapM (fun source => pts <- dict_getitem d source ;;
                        Ok (polyline fmt_2f height fg pts)) (keys d)
    = Ok polys /\
    length polys = length d /\
    list_sum (map (count_tag "polyline") polys) = length polys.
Proof.
  destruct (mapM_ok
              (fun source => pts <- dict_getitem d source ;;
                             Ok (polyline fmt_2f height fg pts)) (keys d))
    as (polys & E).
  { intros k I. destruct (dict_getitem_keys d k I) as (v & ->).
    simpl; now eexists. }
  exists polys; split; [exact E|]. split.
  - rewrite (mapM_length _ _ _ E). unfold keys; apply length_map.
  - revert polys E. generalize (keys d) as ks.
    induction ks as [|k ks IH]; intros polys E; simpl in E.
    + now inversion E.
    + destruct (dict_getitem d k) as [pts|e]; simpl in E; [|discriminate].
      destruct (mapM _ ks) as [ps|e] eqn:E'; simpl in E; [|discriminate].
      inversion E; subst. simpl. f_equal. now apply IH.
Qed.

(** The scene always builds, with one polyline per entry of the dict. *)
Lemma svg_scene_count (d : dict (list point)) (width height padding : Z)
      (i : bool) (hp : number) (ih : bool) (os : option string) (rot : bool)
      (yh : Q) :
  exists doc,
    svg_scene LOGARITHMIC str_float fmt_2f d width height padding i hp ih os
              rot yh = Ok doc /\
    count_tag "polyline" doc = length d.
Proof.
  unfold svg_scene; cbv zeta.
  destruct (polylines_ok d height (if i then "white" else "black"))
    as (polys & -> & L & C).
  cbn [rbind]. eexists; split; [reflexivity|].
  unfold highlight_rect. destruct ih; simpl; rewrite C; lia.
Qed.

Lemma extent_input_wf (data : dict (list point)) (os : option string)
      (nbf : bool) :
  dict_wf data -> dict_wf (extent_input data os nbf).
Proof.
  intros W. unfold extent_input.
  destruct (effective_source data os) as [s|]; [|exact W].
  destruct (truthy (Some s) && negb nbf); [|exact W].
  destruct (dict_getitem data s); [|exact W].
  unfold dict_wf; simpl. constructor; [tauto|constructor].
Qed.

Lemma effective_source_mem {V} (data : dict V) (os : option string)
      (s : string) :
  effective_source data os = Some s -> dict_mem s data = true.
Proof.
  destruct os as [s'|]; simpl; [|discriminate].
  destruct (dict_mem s' data) eqn:M; intros E; inversion E; subst; exact M.
Qed.

Ltac scene_counted doc E C :=
  match goal with
  | |- exists _, svg_scene ?lg ?sf ?f2 ?d ?w ?h ?p ?i ?hp ?ih ?o ?rt ?y = _ /\ _ =>
      destruct (svg_scene_count d w h p i hp ih o rt y) as (doc & E & C)
  end.

(** On a non-degenerate extent the body returns a document; it holds one
    polyline when a filter is in force and one per channel otherwise. *)
Lemma generate_svg_body_ok (data : dict (list point))
      (width height padding : Z) (i : bool) (hp : number) (ih : bool)
      (os : option string) (nbf rot : bool) (r : Region) :
  dict_wf data ->
  LOGARITHMIC = false \/ 0 < num_val hp ->
  get_data_region (extent_input data os nbf) = Ok r ->
  ~ degenerate r ->
  exists doc,
    svg_body data width height padding i hp ih (effective_source data os)
             nbf rot = Ok doc /\
    count_tag "polyline" doc
    = if truthy (effective_source data os) then 1%nat else length data.
Proof.
  intros W Hs Hr N. unfold generate_svg_body.
  rewrite filter_source_extent; cbn [rbind].
  rewrite Hr; cbn [rbind].
  destruct (scale_y_ok _ Hs) as (v & ->); cbn [rbind].
  rewrite normalise_ok by (intros E; apply N; now right); cbn [rbind].
  destruct (normalise_data_ok (extent_input data os nbf) r
              (draw_region_of width height padding)
              (extent_input_wf data os nbf W) N) as (d2 & -> & K).
  cbn [rbind]. unfold filter_source.
  assert (L : forall (a b : dict (list point)),
             keys a = keys b -> length a = length b).
  { intros a b E. unfold keys in E.
    rewrite <- (length_map fst a), <- (length_map fst b). now rewrite E. }
  unfold extent_input in K.
  destruct (effective_source data os) as [s|] eqn:Eo.
  - pose proof (effective_source_mem data os s Eo) as M.
    destruct (truthy (Some s)) eqn:T.
    + destruct nbf; cbn [andb negb] in *.
      * destruct (dict_getitem_keys d2 s) as (pts & ->).
        { rewrite K. now apply dict_mem_In. }
        cbn [rbind]. scene_counted doc E C.
        exists doc; split; [exact E|exact C].
      * destruct (dict_getitem_mem s data M) as (pts & G & _).
        rewrite G in K. cbn [rbind]. scene_counted doc E C.
        exists doc; split; [exact E|]. rewrite C. now rewrite (L _ _ K).
    + cbn [andb rbind] in *. scene_counted doc E C.
      exists doc; split; [exact E|]. rewrite C. now apply L.
  - cbn [rbind]. scene_counted doc E C.
    exists doc; split; [exact E|]. rewrite C. now apply L.
Qed.

(** *** The whole call, world included *)

Lemma generate_svg_tree_run (data : dict (list point))
      (width height padding : Z) (invert : option bool) (hp : number)
      (invert_highlight : option bool) (os : option string) (nbf rot : bool)
      (w : world) :
  svg_tree data width height padding invert hp invert_highlight os nbf rot w
  = (noticed data os (fst (flip invert_highlight (fst (flip invert w)))),
     svg_body data width height padding
              (snd (flip invert w)) hp
              (snd (flip invert_highlight (fst (flip invert w))))
              (effective_source data os) nbf rot).
Proof.
  unfold generate_svg_tree, bind, ret, lift, print, random_choice, flip,
    noticed; cbn beta iota.
  destruct invert as [i|], invert_highlight as [ih|]; cbn beta iota;
    (destruct os as [s|]; cbn [effective_source fst snd];
     [destruct (dict_mem s data)|]; reflexivity).
Qed.

Lemma generate_svg_run (data : dict (list point))
      (width height padding : Z) (invert : option bool) (hp : number)
      (invert_highlight : option bool) (os : option string) (nbf rot : bool)
      (w : world) :
  svg data width height padding invert hp invert_highlight os nbf rot w
  = (noticed data os (fst (flip invert_highlight (fst (flip invert w)))),
     rmap tostring
       (svg_body data width height padding
                 (snd (flip invert w)) hp
                 (snd (flip invert_highlight (fst (flip invert w))))
                 (effective_source data os) nbf rot)).
Proof.
  unfold generate_svg, bind. rewrite generate_svg_tree_run.
  destruct (generate_svg_body _ _ _ _ _ _ _ _ _ _ _ _ _ _); reflexivity.
Qed.

Lemma stdout_flip (flag : option bool) (w : world) :
  stdout (fst (flip flag w)) = stdout w.
Proof. destruct flag; reflexivity. Qed.

(** C4 (as the code has it): on a dict with pairwise distinct keys, when a
    channel with a non-empty name is requested and present and the extent
    the call computes is non-degenerate, [generate_svg] returns a document
    holding exactly one polyline and prints nothing; when the requested
    channel is absent, the call returns what the call without a filter
    returns (the same document, or the same exception) from the same coin
    flips, and prints exactly one more line, the notice naming the
    channel. *)
Theorem generate_svg_filter (data : dict (list point))
        (width height padding : Z) (invert : option bool) (hp : number)
        (invert_highlight : option bool) (s : string) (nbf rot : bool)
        (w : world) :
  dict_wf data ->
  LOGARITHMIC = false \/ 0 < num_val hp ->
  (dict_mem s data = true -> s <> "" ->
   forall r, get_data_region (extent_input data (Some s) nbf) = Ok r ->
             ~ degenerate r ->
   exists doc,
     snd (svg_tree data width height padding invert hp invert_highlight
                   (Some s) nbf rot w) = Ok doc /\
     count_tag "polyline" doc = 1%nat /\
     snd (svg data width height padding invert hp invert_highlight
              (Some s) nbf rot w) = Ok (tostring doc) /\
     stdout (fst (svg data width height padding invert hp invert_highlight
                      (Some s) nbf rot w)) = stdout w) /\
  (dict_mem s data = false ->
   snd (svg data width height padding invert hp invert_highlight
            (Some s) nbf rot w)
   = snd (svg data width height padding invert hp invert_highlight
              None nbf rot w) /\
   coins (fst (svg data width height padding invert hp invert_highlight
                   (Some s) nbf rot w))
   = coins (fst (svg data width height padding invert hp invert_highlight
                     None nbf rot w)) /\
   drawn (fst (svg data width height padding invert hp invert_highlight
                   (Some s) nbf rot w))
   = drawn (fst (svg data width height padding invert hp invert_highlight
                     None nbf rot w)) /\
   stdout (fst (svg data width height padding invert hp invert_highlight
                    (Some s) nbf rot w))
   = (stdout (fst (svg data width height padding invert hp invert_highlight
                       None nbf rot w))
        ++ [("Ignoring request to filter non-existent field: " ++ s)%string])%list).
Proof.
  intros W Hs. split.
  - intros M Ne r Hr N.
    rewrite generate_svg_run, generate_svg_tree_run. cbn [fst snd].
    destruct (generate_svg_body_ok data width height padding
                (snd (flip invert w)) hp
                (snd (flip invert_highlight (fst (flip invert w))))
                (Some s) nbf rot r W Hs Hr N) as (doc & E & C).
    exists doc. rewrite E. cbn [effective_source] in C. rewrite M in C.
    assert (T : truthy (Some s) = true).
    { simpl. destruct (String.eqb_spec s ""); [contradiction|reflexivity]. }
    rewrite T in C. repeat split; try assumption.
    unfold noticed. rewrite M. now rewrite !stdout_flip.
  - intros M. rewrite !generate_svg_run. cbn [fst snd].
    cbn [effective_source noticed]. rewrite M. cbn [coins drawn stdout].
    repeat split.
Qed.

(** C7: with both inversion flags pinned, [generate_svg] is a function of
    its arguments alone: from any two worlds (coin sequences, coins already
    consumed, lines already printed) it returns the same serialized document
    or raises the same exception, prints the same lines, and consumes no
    coin; the same holds for the conversion followed by [generate_svg]. *)
Theorem generate_svg_deterministic (data : dict (list point))
        (sensor_data : sensor_json)
        (width height padding : Z) (i : bool) (hp : number) (ih : bool)
        (os : option string) (nbf rot : bool) (w1 w2 : world) :
  (snd (svg data width height padding (Some i) hp (Some ih) os nbf rot w1)
   = snd (svg data width height padding (Some i) hp (Some ih) os nbf rot w2)
   /\
   (exists out,
       stdout (fst (svg data width height padding (Some i) hp (Some ih) os
                        nbf rot w1)) = (stdout w1 ++ out)%list /\
       stdout (fst (svg data width height padding (Some i) hp (Some ih) os
                        nbf rot w2)) = (stdout w2 ++ out)%list) /\
   drawn (fst (svg data width height padding (Some i) hp (Some ih) os
                   nbf rot w1)) = drawn w1) /\
  (snd (render LOGARITHMIC ln str_float fmt_2f tostring sensor_data
               width height padding (Some i) hp (Some ih) os nbf rot w1)
   = snd (render LOGARITHMIC ln str_float fmt_2f tostring sensor_data
                 width height padding (Some i) hp (Some ih) os nbf rot w2)
   /\
   (exists out,
       stdout (fst (render LOGARITHMIC ln str_float fmt_2f tostring
                           sensor_data width height padding (Some i) hp
                           (Some ih) os nbf rot w1))
       = (stdout w1 ++ out)%list /\
       stdout (fst (render LOGARITHMIC ln str_float fmt_2f tostring
                           sensor_data width height padding (Some i) hp
                           (Some ih) os nbf rot w2))
       = (stdout w2 ++ out)%list) /\
   drawn (fst (render LOGARITHMIC ln str_float fmt_2f tostring
                      sensor_data width height padding (Some i) hp
                      (Some ih) os nbf rot w1)) = drawn w1).
Proof.
  assert (G : forall d,
    snd (svg d width height padding (Some i) hp (Some ih) os nbf rot w1)
    = snd (svg d width height padding (Some i) hp (Some ih) os nbf rot w2)
    /\
    (exists out,
        stdout (fst (svg d width height padding (Some i) hp (Some ih) os
                         nbf rot w1)) = (stdout w1 ++ out)%list /\
        stdout (fst (svg d width height padding (Some i) hp (Some ih) os
                         nbf rot w2)) = (stdout w2 ++ out)%list) /\
    drawn (fst (svg d width height padding (Some i) hp (Some ih) os
                    nbf rot w1)) = drawn w1).
  { intros d. rewrite !generate_svg_run. cbn [flip fst snd].
    split; [reflexivity|]. unfold noticed. destruct os as [s|].
    - destruct (dict_mem s d).
      + split; [exists []; now rewrite !app_nil_r|reflexivity].
      + split; [eexists; split; reflexivity|reflexivity].
    - split; [exists []; now rewrite !app_nil_r|reflexivity]. }
  split; [apply G|].
  unfold render, bind, lift.
  destruct (convert_sensor_data LOGARITHMIC ln sensor_data) as [d|e].
  - apply G.
  - cbn [fst snd]. split; [reflexivity|].
    split; [exists []; now rewrite !app_nil_r|reflexivity].
Qed.

(** *** The two inversion flags *)

Lemma mapM_rmap {A B} (f f' : A -> result B) (g : B -> B) (l : list A) :
  (forall a, f' a = rmap g (f a)) ->
  mapM f' l = rmap (map g) (mapM f l).
Proof.
  intros H. induction l as [|a l IH]; simpl; [reflexivity|].
  rewrite H, IH. unfold rmap.
  destruct (f a); simpl; [|reflexivity].
  destruct (mapM f l); reflexivity.
Qed.

Lemma Element_rect_list (P : Element -> Prop) :
  (forall tg a tx ch, Forall P ch -> P (mkElement tg a tx ch)) ->
  forall e, P e.
Proof.
  intros H. fix IH 1. intros [tg a tx ch]. apply H.
  induction ch as [|c ch IHch]; constructor; [apply IH|exact IHch].
Qed.

(** Recolouring touches nothing but fill and stroke attributes. *)
Lemma strip_colors_recolor (e : Element) :
  strip_colors (recolor e) = strip_colors e.
Proof.
  induction e as [tg a tx ch IH] using Element_rect_list. simpl. f_equal.
  - induction a as [|[k v] a IHa]; simpl; [reflexivity|].
    destruct (is_color_attr k) eqn:E; simpl; rewrite E; simpl;
      now rewrite IHa.
  - induction IH as [|c ch Hc _ IHch]; simpl; [reflexivity|].
    now rewrite Hc, IHch.
Qed.

Lemma generate_svg_body_numbers (data : dict (list point))
      (width height padding : Z) (i : bool) (hp : number) (ih : bool)
      (os : option string) (nbf rot : bool) :
  svg_body data width height padding i hp ih os nbf rot
  = (x <- svg_numbers LOGARITHMIC ln data width height padding hp os nbf ;;
     svg_scene LOGARITHMIC str_float fmt_2f (fst x) width height padding i hp
               ih os rot (snd x)).
Proof.
  unfold generate_svg_body, svg_numbers.
  destruct (filter_source data os (negb nbf)) as [d1|e]; [|reflexivity].
  cbn [rbind].
  destruct (get_data_region d1) as [r|e]; [|reflexivity]. cbn [rbind].
  destruct (scale_y LOGARITHMIC ln (num_val hp)) as [v|e]; [|reflexivity].
  cbn [rbind].
  destruct (normalise v _ _ _ _) as [yh|e]; [|reflexivity]. cbn [rbind].
  destruct (normalise_data d1 r _) as [d2|e]; [|reflexivity]. cbn [rbind].
  destruct (filter_source d2 os nbf) as [d3|e]; reflexivity.
Qed.

Lemma svg_scene_recolor (d : dict (list point)) (width height padding : Z)
      (i : bool) (hp : number) (ih : bool) (os : option string) (rot : bool)
      (yh : Q) :
  svg_scene LOGARITHMIC str_float fmt_2f d width height padding (negb i) hp
            ih os rot yh
  = rmap recolor (svg_scene LOGARITHMIC str_float fmt_2f d width height
                            padding i hp ih os rot yh).
Proof.
  unfold svg_scene; cbv zeta.
  rewrite (mapM_rmap
             (fun source => pts <- dict_getitem d source ;;
                Ok (polyline fmt_2f height (if i then "white" else "black") pts))
             (fun source => pts <- dict_getitem d source ;;
                Ok (polyline fmt_2f height
                             (if negb i then "white" else "black") pts))
             recolor).
  - unfold rmap.
    destruct (mapM _ (keys d)) as [polys|e]; [|reflexivity]. cbn [rbind].
    unfold highlight_rect. destruct i, ih, rot; reflexivity.
  - intros k. unfold rmap. destruct (dict_getitem d k); [|reflexivity].
    destruct i; reflexivity.
Qed.

Lemma svg_scene_strip (d : dict (list point)) (width height padding : Z)
      (i : bool) (hp : number) (ih : bool) (os : option string) (rot : bool)
      (yh : Q) :
  rmap strip_colors
       (svg_scene LOGARITHMIC str_float fmt_2f d width height padding
                  (negb i) hp ih os rot yh)
  = rmap strip_colors
         (svg_scene LOGARITHMIC str_float fmt_2f d width height padding i hp
                    ih os rot yh).
Proof.
  rewrite svg_scene_recolor. unfold rmap.
  destruct (svg_scene _ _ _ d width height padding i hp ih os rot yh);
    cbn [rbind]; [|reflexivity].
  now rewrite strip_colors_recolor.
Qed.

Lemma svg_scene_band (d : dict (list point)) (width height padding : Z)
      (i : bool) (hp : number) (ih : bool) (os : option string) (rot : bool)
      (yh : Q) (doc : Element) :
  svg_scene LOGARITHMIC str_float fmt_2f d width height padding i hp ih os
            rot yh = Ok doc ->
  band doc = Some (highlight_rect str_float width height padding yh ih).
Proof.
  unfold svg_scene; cbv zeta.
  destruct (mapM _ (keys d)) as [polys|e]; cbn [rbind]; [|discriminate].
  intros E; inversion E; reflexivity.
Qed.

Lemma svg_scene_drop_band (d : dict (list point)) (width height padding : Z)
      (i : bool) (hp : number) (ih : bool) (os : option string) (rot : bool)
      (yh : Q) :
  rmap drop_band
       (svg_scene LOGARITHMIC str_float fmt_2f d width height padding i hp
                  (negb ih) os rot yh)
  = rmap drop_band
         (svg_scene LOGARITHMIC str_float fmt_2f d width height padding i hp
                    ih os rot yh).
Proof.
  unfold svg_scene, rmap; cbv zeta.
  destruct (mapM _ (keys d)) as [polys|e]; cbn [rbind]; reflexivity.
Qed.

(** Toggling either flag, in any combination with the other. *)
Lemma flag_toggles (data : dict (list point))
      (width height padding : Z) (hp : number) (os : option string)
      (nbf rot : bool) (w : world) (i ih : bool) :
  snd (svg_tree data width height padding (Some (negb i)) hp (Some ih) os
                nbf rot w)
  = rmap recolor
      (snd (svg_tree data width height padding (Some i) hp (Some ih) os
                     nbf rot w)) /\
  rmap strip_colors
    (snd (svg_tree data width height padding (Some (negb i)) hp (Some ih)
                   os nbf rot w))
  = rmap strip_colors
      (snd (svg_tree data width height padding (Some i) hp (Some ih) os
                     nbf rot w)) /\
  rmap drop_band
    (snd (svg_tree data width height padding (Some i) hp (Some (negb ih))
                   os nbf rot w))
  = rmap drop_band
      (snd (svg_tree data width height padding (Some i) hp (Some ih) os
                     nbf rot w)).
Proof.
  rewrite !generate_svg_tree_pinned; cbn [snd].
  rewrite !generate_svg_body_numbers.
  destruct (svg_numbers LOGARITHMIC ln data width height padding hp
                        (effective_source data os) nbf) as [[d3 yh]|e];
    cbn [rbind fst snd]; [|repeat split].
  split; [apply svg_scene_recolor|].
  split; [apply svg_scene_strip|apply svg_scene_drop_band].
Qed.

(** The grey rectangle of a returned document, and where its threshold
    comes from. *)
Lemma generate_svg_tree_band (data : dict (list point))
      (width height padding : Z) (i : bool) (hp : number) (ih : bool)
      (os : option string) (nbf rot : bool) (w : world) (doc : Element) :
  snd (svg_tree data width height padding (Some i) hp (Some ih) os nbf rot w)
  = Ok doc ->
  exists r v yh,
    get_data_region (extent_input data os nbf) = Ok r /\
    scale_y LOGARITHMIC ln (num_val hp) = Ok v /\
    normalise v (min_y r) (max_y r) (inject_Z padding)
              (inject_Z (height - padding)) = Ok yh /\
    band doc = Some (highlight_rect str_float width height padding yh ih).
Proof.
  rewrite generate_svg_tree_pinned; cbn [snd].
  unfold generate_svg_body.
  rewrite filter_source_extent; cbn [rbind].
  destruct (get_data_region (extent_input data os nbf)) as [r|e];
    cbn [rbind]; [|discriminate].
  destruct (scale_y LOGARITHMIC ln (num_val hp)) as [v|e];
    cbn [rbind]; [|discriminate].
  destruct (normalise v (min_y r) (max_y r) _ _) as [yh|e] eqn:En;
    cbn [rbind]; [|discriminate].
  destruct (normalise_data _ r _) as [d2|e]; cbn [rbind]; [|discriminate].
  destruct (filter_source d2 _ nbf) as [d3|e]; cbn [rbind]; [|discriminate].
  intros E. exists r, v, yh. repeat split; try assumption.
  eapply svg_scene_band. exact E.
Qed.

(** C8: for fixed arguments and pinned flags, in all four combinations of
    the flags: toggling [invert] yields the same outcome with black and
    white exchanged in the fill and stroke attributes and nothing else
    changed (so the two documents agree once fill and stroke are
    forgotten); toggling [invert_highlight] yields the same outcome apart
    from the grey rectangle.  The grey rectangle depends on
    [invert_highlight] alone, through one threshold [yh]: the position to
    which [normalise] maps [scale_y(highlight_power)] over the y extent of
    the dict handed to [get_data_region].  Curves are drawn at
    [height - y], so the threshold line is at [height - yh].  With
    [invert_highlight] off the rectangle begins at the top of the drawing
    rectangle ([y = padding]) and is [(height - padding) - yh] high: it
    ends at the threshold line and covers the readings above the
    threshold.  With [invert_highlight] on it begins at the threshold line
    ([y = height - yh]) and is [yh - padding] high: it ends at the x axis
    and covers the readings below the threshold.  Its [x], [width] and
    [fill] are the same in both cases. *)
Theorem invert_flags_orthogonal (data : dict (list point))
        (width height padding : Z) (hp : number) (os : option string)
        (nbf rot : bool) (w : world) :
  exists yh : Q, forall i ih : bool,
    snd (svg_tree data width height padding (Some (negb i)) hp (Some ih) os
                  nbf rot w)
    = rmap recolor
        (snd (svg_tree data width height padding (Some i) hp (Some ih) os
                       nbf rot w)) /\
    rmap strip_colors
      (snd (svg_tree data width height padding (Some (negb i)) hp (Some ih)
                     os nbf rot w))
    = rmap strip_colors
        (snd (svg_tree data width height padding (Some i) hp (Some ih) os
                       nbf rot w)) /\
    rmap drop_band
      (snd (svg_tree data width height padding (Some i) hp (Some (negb ih))
                     os nbf rot w))
    = rmap drop_band
        (snd (svg_tree data width height padding (Some i) hp (Some ih) os
                       nbf rot w)) /\
    (forall doc,
        snd (svg_tree data width height padding (Some i) hp (Some ih) os
                      nbf rot w) = Ok doc ->
        (exists r v,
            get_data_region (extent_input data os nbf) = Ok r /\
            scale_y LOGARITHMIC ln (num_val hp) = Ok v /\
            normalise v (min_y r) (max_y r) (inject_Z padding)
                      (inject_Z (height - padding)) = Ok yh) /\
        band doc
        = Some (mkElement "rect"
                  (if ih then
                     [ ("x", str_int padding);
                       ("y", str_float (inject_Z height - yh));
                       ("width", str_int ((width - padding) - padding));
                       ("height", str_float (yh - inject_Z padding));
                       ("fill", "grey") ]
                   else
                     [ ("x", str_int padding);
                       ("y", str_int padding);
                       ("width", str_int ((width - padding) - padding));
                       ("height",
                        str_float (inject_Z (height - padding) - yh));
                       ("fill", "grey") ])
                  None [])).
Proof.
  destruct (get_data_region (extent_input data os nbf)) as [r|e] eqn:Er.
  2:{ exists 0. intros i ih.
      destruct (flag_toggles data width height padding hp os nbf rot w i ih)
        as (A & B & C).
      repeat (split; [assumption|]). intros doc E.
      destruct (generate_svg_tree_band _ _ _ _ _ _ _ _ _ _ _ _ E)
        as (r' & v' & yh' & Er' & _). congruence. }
  destruct (scale_y LOGARITHMIC ln (num_val hp)) as [v|e] eqn:Ev.
  2:{ exists 0. intros i ih.
      destruct (flag_toggles data width height padding hp os nbf rot w i ih)
        as (A & B & C).
      repeat (split; [assumption|]). intros doc E.
      destruct (generate_svg_tree_band _ _ _ _ _ _ _ _ _ _ _ _ E)
        as (r' & v' & yh' & _ & Ev' & _). congruence. }
  destruct (normalise v (min_y r) (max_y r) (inject_Z padding)
                      (inject_Z (height - padding))) as [yh|e] eqn:En.
  2:{ exists 0. intros i ih.
      destruct (flag_toggles data width height padding hp os nbf rot w i ih)
        as (A & B & C).
      repeat (split; [assumption|]). intros doc E.
      destruct (generate_svg_tree_band _ _ _ _ _ _ _ _ _ _ _ _ E)
        as (r' & v' & yh' & Er' & Ev' & En' & _).
      rewrite Er in Er'. inversion Er'; subst r'.
      rewrite Ev in Ev'. inversion Ev'; subst v'. congruence. }
  exists yh. intros i ih.
  destruct (flag_toggles data width height padding hp os nbf rot w i ih)
    as (A & B & C).
  repeat (split; [assumption|]). intros doc E.
  destruct (generate_svg_tree_band _ _ _ _ _ _ _ _ _ _ _ _ E)
    as (r' & v' & yh' & Er' & Ev' & En' & Hb).
  rewrite Er in Er'. inversion Er'; subst r'.
  rewrite Ev in Ev'. inversion Ev'; subst v'.
  rewrite En in En'. inversion En'; subst yh'.
  split; [now exists r, v|].
  rewrite Hb. unfold highlight_rect. destruct ih; reflexivity.
Qed.

End Rendering.

(** ** Conversion of the device reply *)

Lemma mapM_ok_or_raise {A B} (f : A -> result B) (l : list A) (e : exn) :
  (forall a, In a l -> (exists b, f a = Ok b) \/ f a = Raise e) ->
  (exists bs, mapM f l = Ok bs) \/ mapM f l = Raise e.
Proof.
  induction l as [|a l IH]; intros H; simpl; [left; now eexists|].
  destruct (H a (or_introl eq_refl)) as [[b ->]| ->]; simpl; [|now right].
  destruct IH as [[bs ->]| ->]; [intros; apply H; now right| |];
    simpl; [left; now eexists|now right].
Qed.

Lemma mapM_raise_from {A B} (f : A -> result B) (l : list A) (e : exn) :
  mapM f l = Raise e -> exists a, In a l /\ f a = Raise e.
Proof.
  induction l as [|a l IH]; simpl; [discriminate|].
  destruct (f a) as [b|e'] eqn:E; simpl.
  - destruct (mapM f l) as [bs|e'']; simpl; [discriminate|].
    intros H; inversion H; subst.
    destruct (IH eq_refl) as (a' & I & Ea'). exists a'; auto.
  - intros H; inversion H; subst. exists a; auto.
Qed.

Lemma index_ok {A} (l : list A) (i : nat) :
  (i < length l)%nat -> exists a, index l i = Ok a /\ nth_error l i = Some a.
Proof.
  intros H. unfold index.
  destruct (nth_error l i) as [a|] eqn:E; [now exists a|].
  apply nth_error_None in E. lia.
Qed.

Lemma forallb_lengths (rows : list (list Q)) (n : nat) :
  forallb (fun sublist => Nat.eqb (length sublist) n) rows = true
  <-> Forall (fun row => length row = n) rows.
Proof.
  rewrite forallb_forall, Forall_forall.
  split; intros H row I; specialize (H row I);
    [now apply Nat.eqb_eq|now apply Nat.eqb_eq].
Qed.

Lemma keys_combine {V} (l : list string) (vs : list V) :
  keys (combine l vs) = firstn (length vs) l.
Proof.
  revert vs; induction l as [|k l IH]; intros [|v vs]; simpl; try reflexivity.
  f_equal. apply IH.
Qed.

Section Conversion.

Variable LOGARITHMIC : bool.
Variable ln : Q -> Q.

Local Abbreviation convert := (convert_sensor_data LOGARITHMIC ln).

(** The loop body of [convert_sensor_data] for column [i] and row [p]. *)
Local Abbreviation cell i :=
  (fun p : list Q =>
     x <- index p 0 ;; v <- index p i ;;
     y <- scale_y LOGARITHMIC ln v ;; Ok (x, y)).

Lemma scale_y_cases (v : Q) :
  (exists y, scale_y LOGARITHMIC ln v = Ok y) \/
  (scale_y LOGARITHMIC ln v = Raise ValueError /\ LOGARITHMIC = true /\ v <= 0).
Proof.
  unfold scale_y, log. destruct LOGARITHMIC; [|left; now eexists].
  destruct (Qle_bool v 0) eqn:E; [|left; now eexists].
  right. apply Qle_bool_iff in E. auto.
Qed.

Lemma cell_cases (n i : nat) (p : list Q) :
  length p = n -> (1 <= i < n)%nat ->
  (exists q, cell i p = Ok q) \/ cell i p = Raise ValueError.
Proof.
  intros L I.
  destruct (index_ok p 0) as (x & -> & _); [lia|].
  destruct (index_ok p i) as (v & -> & _); [lia|]. cbn [rbind].
  destruct (scale_y_cases v) as [[y ->]|[-> _]]; cbn [rbind];
    [left; now eexists|now right].
Qed.

(** Once both checks have passed, the loops cannot fail on an index: they
    either complete or stop on the ValueError of [math.log]. *)
Lemma columns_cases (rows : list (list Q)) (n : nat) :
  Forall (fun row => length row = n) rows ->
  (exists points,
      mapM (fun i => mapM (cell i) rows) (seq 1 (n - 1)) = Ok points /\
      length points = (n - 1)%nat) \/
  mapM (fun i => mapM (cell i) rows) (seq 1 (n - 1)) = Raise ValueError.
Proof.
  intros F.
  destruct (mapM_ok_or_raise (fun i => mapM (cell i) rows) (seq 1 (n - 1))
              ValueError) as [[points E]|E].
  - intros i I. apply in_seq in I.
    apply mapM_ok_or_raise. intros p Ip.
    rewrite Forall_forall in F. apply (cell_cases n); [now apply F|lia].
  - left. exists points; split; [exact E|].
    rewrite (mapM_length _ _ _ E). apply length_seq.
  - now right.
Qed.

Lemma convert_checked (raw : sensor_json) (rest : list string)
      (row0 : list Q) (rows : list (list Q)) :
  labels raw = "Time" :: rest ->
  data_rows raw = row0 :: rows ->
  Forall (fun row => length row = length row0) rows ->
  convert raw
  = (points <- mapM (fun i => mapM (cell i) (row0 :: rows))
                    (seq 1 (length row0 - 1)) ;;
     Ok (dict_of_items (combine rest points))).
Proof.
  intros Hl Hd F. unfold convert_sensor_data. rewrite Hl, Hd.
  cbn [index nth_error rbind tl]. cbn [String.eqb Ascii.eqb Bool.eqb negb].
  replace (forallb _ (row0 :: rows)) with true; [reflexivity|].
  symmetry. apply forallb_lengths. constructor; [reflexivity|exact F].
Qed.

End Conversion.

(** C5: with [LOGARITHMIC] set, a reply that passes both checks and holds a
    zero or negative value in some channel column makes
    [convert_sensor_data] raise the ValueError of [math.log]; the error
    arises in the conversion, so the conversion followed by [generate_svg]
    ends with it without printing, flipping a coin or building any
    element. *)
Theorem render_log_domain (ln : Q -> Q) (str_float fmt_2f : Q -> string)
        (tostring : Element -> string) (raw : sensor_json)
        (rest : list string) (row0 : list Q) (rows : list (list Q))
        (row : list Q) (i : nat) (v : Q)
        (width height padding : Z) (invert : option bool) (hp : number)
        (invert_highlight : option bool) (os : option string)
        (nbf rot : bool) (w : world) :
  labels raw = "Time" :: rest ->
  data_rows raw = row0 :: rows ->
  Forall (fun r => length r = length row0) rows ->
  In row (row0 :: rows) ->
  (1 <= i)%nat ->
  nth_error row i = Some v ->
  v <= 0 ->
  convert_sensor_data true ln raw = Raise ValueError /\
  render true ln str_float fmt_2f tostring raw width height padding invert hp
         invert_highlight os nbf rot w = (w, Raise ValueError).
Proof.
  intros Hl Hd F Ir Hi Hv Hneg.
  assert (Fa : Forall (fun r => length r = length row0) (row0 :: rows))
    by (constructor; [reflexivity|exact F]).
  assert (Li : (i < length row0)%nat).
  { rewrite Forall_forall in Fa. rewrite <- (Fa row Ir).
    apply nth_error_Some. congruence. }
  assert (C : convert_sensor_data true ln raw = Raise ValueError).
  { rewrite (convert_checked true ln raw rest row0 rows Hl Hd F).
    rewrite (mapM_first_raise _ (seq 1 (length row0 - 1)) ValueError);
      [reflexivity| |].
    - intros j Ij. apply in_seq in Ij.
      destruct (mapM_ok_or_raise
                  (fun p : list Q =>
                     x <- index p 0 ;; v0 <- index p j ;;
                     y <- scale_y true ln v0 ;; Ok (x, y))
                  (row0 :: rows) ValueError) as [[bs E]|E].
      + intros p Ip. rewrite Forall_forall in Fa.
        apply (cell_cases true ln (length row0)); [now apply Fa|lia].
      + left; now exists bs.
      + now right.
    - exists i. split; [apply in_seq; lia|].
      apply mapM_first_raise.
      + intros p Ip. rewrite Forall_forall in Fa.
        apply (cell_cases true ln (length row0)); [now apply Fa|lia].
      + exists row. split; [exact Ir|].
        destruct (index_ok row 0) as (x & -> & _).
        { rewrite Forall_forall in Fa. rewrite (Fa row Ir). lia. }
        unfold index at 1. rewrite Hv. cbn [rbind].
        unfold scale_y, log.
        replace (Qle_bool v 0) with true; [reflexivity|].
        symmetry. now apply Qle_bool_iff. }
  split; [exact C|]. unfold render, bind, lift. now rewrite C.
Qed.

Lemma render_log_domain_witness :
  convert_sensor_data true (fun q => q)
    (mkSensorJson ["Time"; "A"] [ [0; 10]; [1; 0] ]) = Raise ValueError /\
  render true (fun q => q) show_Q show_Q show_element
         (mkSensorJson ["Time"; "A"] [ [0; 10]; [1; 0] ])
         1448 1072 50 (Some false) (PyInt 1000) (Some false) None true true
         world0 = (world0, Raise ValueError).
Proof.
  apply (render_log_domain (fun q => q) show_Q show_Q show_element
           (mkSensorJson ["Time"; "A"] [ [0; 10]; [1; 0] ])
           ["A"] [0; 10] [ [1; 0] ] [1; 0] 1%nat 0).
  - reflexivity.
  - reflexivity.
  - repeat constructor.
  - simpl; auto.
  - lia.
  - reflexivity.
  - apply Qle_refl.
Defined.

Lemma convert_no_exception (LOGARITHMIC : bool) (ln : Q -> Q)
      (raw : sensor_json) (rest : list string) (row0 : list Q)
      (rows : list (list Q)) :
  labels raw = "Time" :: rest ->
  data_rows raw = row0 :: rows ->
  Forall (fun row => length row = length row0) rows ->
  (exists points,
      convert_sensor_data LOGARITHMIC ln raw
      = Ok (dict_of_items (combine rest points)) /\
      length points = (length row0 - 1)%nat) \/
  (convert_sensor_data LOGARITHMIC ln raw = Raise ValueError /\
   LOGARITHMIC = true).
Proof.
  intros Hl Hd F.
  rewrite (convert_checked LOGARITHMIC ln raw rest row0 rows Hl Hd F).
  destruct (columns_cases LOGARITHMIC ln (row0 :: rows) (length row0))
    as [(points & -> & L)| E].
  - constructor; [reflexivity|exact F].
  - left. now exists points.
  - right. rewrite E. split; [reflexivity|].
    apply mapM_raise_from in E as (i & _ & E).
    apply mapM_raise_from in E as (p & _ & E).
    unfold index in E.
    destruct (nth_error p 0); cbn [rbind] in E; [|discriminate].
    destruct (nth_error p i) as [v|]; cbn [rbind] in E; [|discriminate].
    destruct (scale_y_cases LOGARITHMIC ln v) as [[y Ey]|(_ & T & _)];
      [rewrite Ey in E; discriminate|exact T].
Qed.

(** C9 (as the code has it): [convert_sensor_data] raises one of its two
    explicit Exceptions exactly when the first label exists and is not
    "Time", or the first label is "Time", there is a first row, and some
    row's length differs from it.  An empty label list, or no row at all,
    ends in IndexError instead; a reply with no channel column passes and
    gives the empty dict.  Whatever the conversion raises reaches the caller
    of the conversion followed by [generate_svg] unchanged, after a single
    attempt. *)
Theorem convert_sensor_data_validation (LOGARITHMIC : bool) (ln : Q -> Q)
        (str_float fmt_2f : Q -> string) (tostring : Element -> string)
        (raw : sensor_json) :
  ((exists msg, convert_sensor_data LOGARITHMIC ln raw = Raise (Exception msg))
   <-> rejected raw) /\
  (labels raw = [] ->
   convert_sensor_data LOGARITHMIC ln raw = Raise IndexError) /\
  (forall rest, labels raw = "Time" :: rest -> data_rows raw = [] ->
   convert_sensor_data LOGARITHMIC ln raw = Raise IndexError) /\
  (forall rest row0 rows,
      labels raw = "Time" :: rest -> data_rows raw = row0 :: rows ->
      Forall (fun row => length row = length row0) rows ->
      (length row0 <= 1)%nat ->
      convert_sensor_data LOGARITHMIC ln raw = Ok []) /\
  (forall e, convert_sensor_data LOGARITHMIC ln raw = Raise e ->
   forall width height padding invert hp invert_highlight os nbf rot w,
     render LOGARITHMIC ln str_float fmt_2f tostring raw width height padding
            invert hp invert_highlight os nbf rot w = (w, Raise e)).
Proof.
  split; [|split; [|split; [|split]]].
  - unfold rejected, convert_sensor_data.
    destruct (labels raw) as [|label0 rest] eqn:Hl.
    { cbn. split; [intros [msg H]; discriminate|tauto]. }
    cbn [index nth_error rbind].
    destruct (String.eqb_spec label0 "Time") as [->|Ne]; cbn [negb].
    2:{ split; [auto|intros _; now eexists]. }
    destruct (data_rows raw) as [|row0 rows] eqn:Hd.
    { cbn. split; [intros [msg H]; discriminate|tauto]. }
    cbn [index nth_error rbind].
    destruct (forallb _ (row0 :: rows)) eqn:Fb; cbn [negb].
    + apply forallb_lengths in Fb. inversion Fb as [|? ? _ F]; subst.
      destruct (columns_cases LOGARITHMIC ln (row0 :: rows) (length row0) Fb)
        as [(points & E & _)|E]; cbn [tl]; rewrite E; cbn [rbind].
      * split; [intros [msg H]; discriminate|]. intros [C|C]; tauto.
      * split; [intros [msg H]; discriminate|]. intros [C|C]; tauto.
    + split; [|intros _; now eexists]. intros _. right. intros F.
      assert (T : forallb (fun sublist => Nat.eqb (length sublist) (length row0))
                          (row0 :: rows) = true)
        by (apply forallb_lengths; constructor; [reflexivity|exact F]).
      congruence.
  - intros Hl. unfold convert_sensor_data. now rewrite Hl.
  - intros rest Hl Hd. unfold convert_sensor_data. rewrite Hl, Hd.
    reflexivity.
  - intros rest row0 rows Hl Hd F L1.
    rewrite (convert_checked LOGARITHMIC ln raw rest row0 rows Hl Hd F).
    replace (length row0 - 1)%nat with 0%nat by lia. cbn.
    destruct rest; reflexivity.
  - intros e C width height padding invert hp invert_highlight os nbf rot w.
    unfold render, bind, lift. now rewrite C.
Qed.

Lemma mapM_map_ok {A B} (f : A -> result B) (g : A -> B) (l : list A) :
  (forall a, In a l -> f a = Ok (g a)) -> mapM f l = Ok (map g l).
Proof.
  induction l as [|a l IH]; intros H; simpl; [reflexivity|].
  rewrite (H a (or_introl eq_refl)); cbn [rbind].
  rewrite IH by (intros; apply H; now right). reflexivity.
Qed.

Lemma index_nth (l : list Q) (i : nat) :
  (i < length l)%nat -> index l i = Ok (nth i l 0).
Proof.
  intros H. unfold index.
  rewrite (nth_error_nth' l 0 H). reflexivity.
Qed.

(** C10 (as the code has it): with [LOGARITHMIC] off, a reply whose first
    label is "Time", whose rows all have the length of the first row, and
    whose labels paired with a column are pairwise distinct is converted
    without error, whether or not the label count agrees with the row
    width: label number [j] gets column [j], labels beyond the last column
    and columns beyond the last label are dropped, and the dict has
    min(len(labels) - 1, row_length - 1) channels. *)
Theorem convert_label_mismatch (ln : Q -> Q) (raw : sensor_json)
        (rest : list string) (row0 : list Q) (rows : list (list Q)) :
  labels raw = "Time" :: rest ->
  data_rows raw = row0 :: rows ->
  Forall (fun row => length row = length row0) rows ->
  NoDup (firstn (length row0 - 1) rest) ->
  convert_sensor_data false ln raw
  = Ok (combine rest
          (map (fun i => column i (row0 :: rows)) (seq 1 (length row0 - 1))))
  /\
  length (combine rest
            (map (fun i => column i (row0 :: rows)) (seq 1 (length row0 - 1))))
  = Nat.min (length (labels raw) - 1) (length row0 - 1).
Proof.
  intros Hl Hd F ND.
  assert (Fa : Forall (fun r => length r = length row0) (row0 :: rows))
    by (constructor; [reflexivity|exact F]).
  split.
  - rewrite (convert_checked false ln raw rest row0 rows Hl Hd F).
    rewrite (mapM_map_ok _ (fun i => column i (row0 :: rows))).
    + cbn [rbind]. f_equal. apply dict_of_items_wf. unfold dict_wf.
      rewrite keys_combine, length_map, length_seq. exact ND.
    + intros i Ii. apply in_seq in Ii. unfold column.
      apply mapM_map_ok. intros p Ip.
      rewrite Forall_forall in Fa. pose proof (Fa p Ip) as Lp.
      rewrite !index_nth by lia. reflexivity.
  - rewrite length_combine, length_map, length_seq, Hl. simpl.
    now rewrite Nat.sub_0_r.
Qed.

Lemma convert_label_mismatch_witness :
  convert_sensor_data false (fun q => q) surplus_json
  = Ok (combine ["A"; "B"; "C"]
          (map (fun i => column i [ [0; 10]; [1; 20] ]) (seq 1 (2 - 1))))
  /\
  length (combine ["A"; "B"; "C"]
            (map (fun i => column i [ [0; 10]; [1; 20] ]) (seq 1 (2 - 1))))
  = Nat.min (length (labels surplus_json) - 1) (2 - 1).
Proof.
  apply (convert_label_mismatch (fun q => q) surplus_json ["A"; "B"; "C"]
           [0; 10] [ [1; 20] ]).
  - reflexivity.
  - reflexivity.
  - repeat constructor.
  - simpl. constructor; [simpl; tauto|constructor].
Defined.

(** A repeated label collapses two columns into one dict entry: two labels
    and three columns are paired, yet the dict has a single channel. *)
Lemma repeated_label_collapses :
  exists d,
    convert_sensor_data false (fun q => q) repeated_json = Ok d /\
    d = [ ("A", [(0, 2)]) ] /\
    length d <> Nat.min (length (labels repeated_json) - 1) (4 - 1).
Proof.
  eexists. split; [reflexivity|]. split; [reflexivity|].
  simpl. discriminate.
Qed.

(** A reply with no channel column passes both checks: the conversion
    returns the empty dict, and the failure comes later, as the ValueError
    of [min] on an empty sequence inside [get_data_region]; a reply with no
    row at all ends in IndexError.  Neither is one of the two explicit
    Exceptions. *)
Lemma no_channel_passes_validation :
  convert_sensor_data false (fun q => q) no_channel_json = Ok [] /\
  render false (fun q => q) show_Q show_Q show_element no_channel_json
         1448 1072 50 (Some false) (PyInt 1000) (Some false) None true true
         world0 = (world0, Raise ValueError) /\
  convert_sensor_data false (fun q => q) (mkSensorJson ["Time"; "A"] [])
  = Raise IndexError.
Proof.
  repeat split; reflexivity.
Qed.

(** ** The rendering claims on concrete inputs *)

Lemma generate_svg_degenerate_witness :
  snd (generate_svg false (fun q => q) show_Q show_Q show_element flat_data
                    1448 1072 50 None (PyInt 1000) None None true true world0)
  = Raise ZeroDivisionError.
Proof.
  apply (generate_svg_degenerate false (fun q => q) show_Q show_Q show_element
           flat_data 1448 1072 50 None (PyInt 1000) None None true true world0
           (mkRegion 0 5 1 5)).
  - left; reflexivity.
  - reflexivity.
  - right; reflexivity.
Defined.

(** A channel that never varies has an extent of zero height.  No check
    rejects it: the threshold is mapped first, by the division inside
    [normalise], and the call ends with the ZeroDivisionError of that
    division. *)
Lemma flat_channel_divides_by_zero :
  get_data_region flat_data = Ok (mkRegion 0 5 1 5) /\
  normalise 1000 5 5 50 1022 = Raise ZeroDivisionError /\
  py_div ((1000 - 5) * (1022 - 50)) (5 - 5) = Raise ZeroDivisionError /\
  snd (generate_svg false (fun q => q) show_Q show_Q show_element flat_data
                    1448 1072 50 (Some false) (PyInt 1000) (Some false) None
                    true true world0)
  = Raise ZeroDivisionError.
Proof.
  repeat split; reflexivity.
Qed.

Lemma scenario_data_wf : dict_wf scenario_data.
Proof.
  unfold dict_wf; simpl.
  constructor; [simpl; intros [H|[]]; discriminate H|].
  constructor; [simpl; tauto|constructor].
Defined.

Lemma generate_svg_filter_witness :
  (exists doc,
      snd (generate_svg_tree false (fun q => q) show_Q show_Q scenario_data
             1448 1072 50 None (PyInt 300) None (Some "A") true true world0)
      = Ok doc /\
      count_tag "polyline" doc = 1%nat /\
      snd (generate_svg false (fun q => q) show_Q show_Q show_element
             scenario_data 1448 1072 50 None (PyInt 300) None (Some "A") true
             true world0) = Ok (show_element doc) /\
      stdout (fst (generate_svg false (fun q => q) show_Q show_Q show_element
                     scenario_data 1448 1072 50 None (PyInt 300) None
                     (Some "A") true true world0)) = stdout world0) /\
  snd (generate_svg false (fun q => q) show_Q show_Q show_element
         scenario_data 1448 1072 50 None (PyInt 300) None (Some "Z") true
         true world0)
  = snd (generate_svg false (fun q => q) show_Q show_Q show_element
           scenario_data 1448 1072 50 None (PyInt 300) None None true true
           world0).
Proof.
  split.
  - apply (proj1 (generate_svg_filter false (fun q => q) show_Q show_Q
                    show_element scenario_data 1448 1072 50 None (PyInt 300)
                    None "A" true true world0 scenario_data_wf
                    (or_introl eq_refl))
                 eq_refl
                 (fun H : "A" = "" => eq_ind "A"
                    (fun s => match s with EmptyString => False | _ => True end)
                    I "" H)
                 (mkRegion 0 10 2 400) eq_refl).
    intros [H|H]; discriminate H.
  - apply (proj2 (generate_svg_filter false (fun q => q) show_Q show_Q
                    show_element scenario_data 1448 1072 50 None (PyInt 300)
                    None "Z" true true world0 scenario_data_wf
                    (or_introl eq_refl))
                 eq_refl).
Defined.

(** A snapshot with one series of one sample is valid, and its channel is
    present; yet no document is produced, filtered or not: the extent is a
    single point and the call raises ZeroDivisionError. *)
Lemma single_sample_no_document :
  single_data <> [] /\
  Forall (fun kv : string * list point => snd kv <> []) single_data /\
  dict_mem "A" single_data = true /\
  snd (generate_svg false (fun q => q) show_Q show_Q show_element single_data
         1448 1072 50 (Some false) (PyInt 1000) (Some false) (Some "A") true
         true world0) = Raise ZeroDivisionError /\
  snd (generate_svg false (fun q => q) show_Q show_Q show_element single_data
         1448 1072 50 (Some false) (PyInt 1000) (Some false) (Some "A") false
         true world0) = Raise ZeroDivisionError.
Proof.
  split; [discriminate|]. split; [repeat constructor; discriminate|].
  repeat split; reflexivity.
Qed.

(** For a present channel with a non-empty name the two modes differ as
    intended: the extent is taken over the whole dict by default and over
    the channel alone with [normalise_before_filter] off. *)
Lemma extent_input_modes (data : dict (list point)) (s : string)
      (pts : list point) :
  dict_mem s data = true -> s <> "" -> dict_getitem data s = Ok pts ->
  extent_input data (Some s) true = data /\
  extent_input data (Some s) false = [(s, pts)].
Proof.
  intros M Ne G. unfold extent_input; cbn [effective_source]. rewrite M.
  assert (T : truthy (Some s) = true).
  { simpl. destruct (String.eqb_spec s ""); [contradiction|reflexivity]. }
  rewrite T, G. split; reflexivity.
Qed.

(** C6, at the input where the code departs from it: the dict has a channel
    named by the empty string, that channel is requested, and
    [normalise_before_filter] is off.  The request is not reported as
    unknown and the title names the channel, but neither filter fires: the
    threshold is mapped with the extent of the whole dict (y from 1 to 400)
    although the channel alone spans y from 1 to 2, and both polylines are
    drawn. *)
Theorem empty_name_filter_ignored :
  dict_mem "" unnamed_data = true /\
  get_data_region [ ("", [(0, 1); (1, 2)]) ] = Ok (mkRegion 0 1 1 2) /\
  get_data_region unnamed_data = Ok (mkRegion 0 1 1 400) /\
  exists doc yh,
    generate_svg_tree false (fun q => q) show_Q show_Q unnamed_data
      1448 1072 50 (Some false) (PyInt 1000) (Some false) (Some "") false true
      world0 = (world0, Ok doc) /\
    count_tag "polyline" doc = 2%nat /\
    normalise 1000 1 400 50 1022 = Ok yh /\
    band doc = Some (highlight_rect show_Q 1448 1072 50 yh false) /\
    option_map text_of (nth_error (children_of
                                     (nth 0 (children_of doc) doc)) 2)
    = Some (Some "Power consumption ()").
Proof.
  split; [reflexivity|]. split; [reflexivity|]. split; [reflexivity|].
  eexists. eexists.
  split; [vm_compute; reflexivity|].
  split; [vm_compute; reflexivity|].
  split; [vm_compute; reflexivity|].
  split; vm_compute; reflexivity.
Qed.

(** The grey rectangle of the scenario (threshold 300 over the y extent
    10..400, canvas 1448 by 1072, padding 50; the mapped threshold is
    10046/13): above the threshold line with [invert_highlight] off, below
    it with [invert_highlight] on. *)
Example scenario_bands :
  band (value_or (mkElement "" [] None [])
          (snd (generate_svg_tree false (fun q => q) show_Q show_Q
                  scenario_data 1448 1072 50 (Some false) (PyInt 300)
                  (Some false) None true true world0)))
  = Some (mkElement "rect"
            [ ("x", "50"); ("y", "50"); ("width", "1348");
              ("height", "3240/13"); ("fill", "grey") ] None []) /\
  band (value_or (mkElement "" [] None [])
          (snd (generate_svg_tree false (fun q => q) show_Q show_Q
                  scenario_data 1448 1072 50 (Some false) (PyInt 300)
                  (Some true) None true true world0)))
  = Some (mkElement "rect"
            [ ("x", "50"); ("y", "3890/13"); ("width", "1348");
              ("height", "9396/13"); ("fill", "grey") ] None []).
Proof. split; vm_compute; reflexivity. Qed.

(* ------------------------------------------------------------------ *)
(** * Further properties of the rendering core *)

(** ** Extents and normalised data *)

Lemma normalise_point_value (r dr : Region) (p : point) :
  ~ degenerate r -> normalise_point r dr p = Ok (affine r dr p).
Proof.
  intros N. unfold normalise_point, affine.
  rewrite normalise_ok by (intros E; apply N; now left); cbn [rbind].
  rewrite normalise_ok by (intros E; apply N; now right); cbn [rbind].
  reflexivity.
Qed.

Lemma normalise_data_keys (d d2 : dict (list point)) (r dr : Region) :
  dict_wf d -> normalise_data d r dr = Ok d2 -> keys d2 = keys d.
Proof.
  intros W. unfold normalise_data.
  destruct (mapM _ d) as [items|e] eqn:E; cbn [rbind]; [|discriminate].
  assert (K : keys items = keys d).
  { eapply mapM_fst; [|exact E]. intros [k pts] b; simpl.
    destruct (mapM (normalise_point r dr) pts); simpl; intros H;
      inversion H; reflexivity. }
  rewrite dict_of_items_wf by (unfold dict_wf; now rewrite K).
  intros H; inversion H; subst. exact K.
Qed.

Lemma normalise_data_value (d : dict (list point)) (r dr : Region) :
  dict_wf d -> ~ degenerate r ->
  normalise_data d r dr
  = Ok (map (fun kv => (fst kv, map (affine r dr) (snd kv))) d).
Proof.
  intros W N. unfold normalise_data.
  rewrite (mapM_map_ok _ (fun kv => (fst kv, map (affine r dr) (snd kv)))).
  - cbn [rbind]. f_equal. apply dict_of_items_wf.
    unfold dict_wf, keys. rewrite map_map. simpl. exact W.
  - intros [k pts] _. simpl.
    rewrite (mapM_map_ok _ (affine r dr));
      [reflexivity|intros; now apply normalise_point_value].
Qed.

(** The extent of a single channel lies inside the extent of the whole
    dict. *)
Theorem channel_extent_within (data : dict (list point)) (s : string)
        (pts : list point) (R : Region) :
  In (s, pts) data -> pts <> [] -> get_data_region data = Ok R ->
  exists r,
    get_data_region [(s, pts)] = Ok r /\
    min_x R <= min_x r /\ max_x r <= max_x R /\
    min_y R <= min_y r /\ max_y r <= max_y R.
Proof.
  intros I Ne E.
  destruct (get_data_region_spec data (get_data_region_ok_nonempty data R E))
    as (R' & E' & Hb & _).
  rewrite E in E'. inversion E'; subst R'.
  assert (Hne : all_points [(s, pts)] <> []).
  { unfold all_points; simpl. rewrite app_nil_r. exact Ne. }
  destruct (get_data_region_spec [(s, pts)] Hne)
    as (r & Er & _ & (p1 & I1 & E1) & (p2 & I2 & E2) & (p3 & I3 & E3)
          & (p4 & I4 & E4)).
  exists r. split; [exact Er|].
  assert (Sub : forall p, In p (all_points [(s, pts)]) -> In p (all_points data)).
  { intros p Ip. unfold all_points in Ip; simpl in Ip.
    rewrite app_nil_r in Ip. apply all_points_In. now exists s, pts. }
  rewrite <- E1, <- E2, <- E3, <- E4.
  destruct (Hb p1 (Sub p1 I1)) as (? & ? & ? & ?).
  destruct (Hb p2 (Sub p2 I2)) as (? & ? & ? & ?).
  destruct (Hb p3 (Sub p3 I3)) as (? & ? & ? & ?).
  destruct (Hb p4 (Sub p4 I4)) as (? & ? & ? & ?).
  tauto.
Qed.

Lemma channel_extent_within_witness :
  exists r,
    get_data_region [("A", [(0, 10); (1, 20); (2, 50)])] = Ok r /\
    min_x (mkRegion 0 10 2 400) <= min_x r /\
    max_x r <= max_x (mkRegion 0 10 2 400) /\
    min_y (mkRegion 0 10 2 400) <= min_y r /\
    max_y r <= max_y (mkRegion 0 10 2 400).
Proof.
  apply (channel_extent_within scenario_data "A" [(0, 10); (1, 20); (2, 50)]
           (mkRegion 0 10 2 400)).
  - simpl; auto.
  - discriminate.
  - reflexivity.
Defined.

(** ** More on [generate_svg] *)

Lemma mapM_In {A B} (f : A -> result B) (l : list A) (bs : list B)
      (a : A) (b : B) :
  mapM f l = Ok bs -> In a l -> f a = Ok b -> In b bs.
Proof.
  revert bs; induction l as [|a0 l IH]; intros bs H I Fa; [destruct I|].
  simpl in H. destruct (f a0) as [b0|e] eqn:E0; simpl in H; [|discriminate].
  destruct (mapM f l) as [bs'|e]; simpl in H; [|discriminate].
  inversion H; subst. destruct I as [->|I].
  - left. congruence.
  - right. now apply IH.
Qed.

Lemma no_points_channels (data : dict (list point)) (k : string)
      (pts : list point) :
  all_points data = [] -> In (k, pts) data -> pts = [].
Proof.
  intros E I. destruct pts as [|p pts]; [reflexivity|].
  assert (Ip : In p (all_points data))
    by (apply all_points_In; exists k, (p :: pts); simpl; auto).
  rewrite E in Ip. destruct Ip.
Qed.

Lemma extent_input_no_points (data : dict (list point)) (os : option string)
      (nbf : bool) :
  all_points data = [] -> all_points (extent_input data os nbf) = [].
Proof.
  intros E. unfold extent_input.
  destruct (effective_source data os) as [s|] eqn:Eo; [|exact E].
  destruct (truthy (Some s) && negb nbf); [|exact E].
  destruct (dict_getitem_mem s data (effective_source_mem data os s Eo))
    as (pts & -> & I).
  now rewrite (no_points_channels data s pts E I).
Qed.

(** ** The outcome of [normalise_data] *)

Lemma normalise_data_no_points (d : dict (list point)) (r dr : Region) :
  dict_wf d -> all_points d = [] -> normalise_data d r dr = Ok d.
Proof.
  intros W E. unfold normalise_data.
  rewrite (mapM_map_ok _ (fun kv => kv)).
  - cbn [rbind]. rewrite map_id. now rewrite dict_of_items_wf.
  - intros [k pts] I. rewrite (no_points_channels d k pts E I). reflexivity.
Qed.

(** [normalise_data] either returns a dict of the same shape or raises
    ZeroDivisionError, and which of the two is decided by the source region
    and by whether there is any point at all: with at least one point and a
    source region of zero width or zero height the first division raises;
    otherwise (a region with distinct bounds on both axes, or no point to
    map) the result has the same channel names in the same order and, per
    channel, as many points as the input. *)
Theorem normalise_data_outcome (d : dict (list point)) (r dr : Region) :
  dict_wf d ->
  (degenerate r -> all_points d <> [] ->
   normalise_data d r dr = Raise ZeroDivisionError) /\
  (~ degenerate r \/ all_points d = [] ->
   exists d2,
     normalise_data d r dr = Ok d2 /\
     keys d2 = keys d /\
     map (fun kv => length (snd kv)) d2 = map (fun kv => length (snd kv)) d).
Proof.
  intros W. split.
  - intros D Ne. now apply normalise_data_degenerate.
  - intros [N|E].
    + rewrite (normalise_data_value d r dr W N).
      eexists. split; [reflexivity|]. split.
      * unfold keys. rewrite map_map. reflexivity.
      * rewrite map_map. apply map_ext. intros [k pts]; simpl.
        apply length_map.
    + rewrite (normalise_data_no_points d r dr W E).
      exists d. repeat split.
Qed.

Lemma normalise_data_outcome_witness :
  normalise_data flat_data (mkRegion 0 5 1 5) (draw_region_of 1448 1072 50)
  = Raise ZeroDivisionError /\
  exists d2,
    normalise_data scenario_data (mkRegion 0 10 2 400)
                   (draw_region_of 1448 1072 50) = Ok d2 /\
    keys d2 = keys scenario_data /\
    map (fun kv => length (snd kv)) d2
    = map (fun kv => length (snd kv)) scenario_data.
Proof.
  split.
  - apply (proj1 (normalise_data_outcome flat_data (mkRegion 0 5 1 5)
                    (draw_region_of 1448 1072 50)
                    ltac:(unfold dict_wf; simpl;
                          constructor; [simpl; tauto|constructor]))).
    + right; reflexivity.
    + discriminate.
  - apply (proj2 (normalise_data_outcome scenario_data (mkRegion 0 10 2 400)
                    (draw_region_of 1448 1072 50) scenario_data_wf)).
    left. intros [H|H]; discriminate H.
Defined.

Section RenderingMore.

Variable LOGARITHMIC : bool.
Variable ln : Q -> Q.
Variables str_float fmt_2f : Q -> string.
Variable tostring : Element -> string.

Local Abbreviation svg_body := (generate_svg_body LOGARITHMIC ln str_float fmt_2f).
Local Abbreviation svg_tree := (generate_svg_tree LOGARITHMIC ln str_float fmt_2f).
Local Abbreviation svg := (generate_svg LOGARITHMIC ln str_float fmt_2f tostring).
Local Abbreviation numbers := (svg_numbers LOGARITHMIC ln).
Local Abbreviation scene := (svg_scene LOGARITHMIC str_float fmt_2f).

(** A snapshot without a single sample (no channel, or only empty channels)
    has no extent: [get_data_region] raises the ValueError of [min] on an
    empty sequence, and so does [generate_svg], whatever its other
    arguments. *)
Theorem generate_svg_no_points (data : dict (list point))
        (width height padding : Z) (invert : option bool) (hp : number)
        (invert_highlight : option bool) (os : option string)
        (nbf rot : bool) (w : world) :
  all_points data = [] ->
  get_data_region data = Raise ValueError /\
  snd (svg data width height padding invert hp invert_highlight os nbf rot w)
  = Raise ValueError.
Proof.
  intros E. split; [now apply get_data_region_empty|].
  rewrite (generate_svg_run LOGARITHMIC ln str_float fmt_2f tostring).
  cbn [snd]. unfold generate_svg_body.
  rewrite filter_source_extent; cbn [rbind].
  rewrite (get_data_region_empty _ (extent_input_no_points data os nbf E)).
  reflexivity.
Qed.

(** A flag left to chance takes the next coin: with both flags unpinned the
    first coin decides [invert] and the second [invert_highlight]; with one
    flag pinned the other takes the first coin.  The call consumes exactly
    one coin per unpinned flag and otherwise behaves as the pinned call. *)
Theorem generate_svg_coin_flags (data : dict (list point))
        (width height padding : Z) (i ih : bool) (hp : number)
        (os : option string) (nbf rot : bool) (w : world) :
  (snd (svg data width height padding None hp None os nbf rot w)
   = snd (svg data width height padding (Some (coins w (drawn w))) hp
              (Some (coins w (S (drawn w)))) os nbf rot w) /\
   drawn (fst (svg data width height padding None hp None os nbf rot w))
   = S (S (drawn w))) /\
  (snd (svg data width height padding (Some i) hp None os nbf rot w)
   = snd (svg data width height padding (Some i) hp
              (Some (coins w (drawn w))) os nbf rot w) /\
   drawn (fst (svg data width height padding (Some i) hp None os nbf rot w))
   = S (drawn w)) /\
  (snd (svg data width height padding None hp (Some ih) os nbf rot w)
   = snd (svg data width height padding (Some (coins w (drawn w))) hp
              (Some ih) os nbf rot w) /\
   drawn (fst (svg data width height padding None hp (Some ih) os nbf rot w))
   = S (drawn w)).
Proof.
  rewrite !(generate_svg_run LOGARITHMIC ln str_float fmt_2f tostring).
  cbn [flip fst snd coins drawn stdout].
  assert (D : forall w', drawn (noticed data os w') = drawn w').
  { intros w'. unfold noticed. destruct os as [s|]; [|reflexivity].
    destruct (dict_mem s data); reflexivity. }
  rewrite !D. cbn [drawn]. repeat split.
Qed.

(** [rotate] touches the wrapper only: with and without it the call fails
    alike or builds the same children under the group; rotating swaps the
    width and height attributes of the root and gives the group its
    transform. *)
Theorem rotate_changes_wrapper_only (data : dict (list point))
        (width height padding : Z) (invert : option bool) (hp : number)
        (invert_highlight : option bool) (os : option string) (nbf : bool)
        (w : world) (doc : Element) :
  snd (svg_tree data width height padding invert hp invert_highlight os nbf
                false w) = Ok doc ->
  exists kids,
    doc = mkElement "svg"
            [ ("width", str_int width); ("height", str_int height);
              ("xmlns", "http://www.w3.org/2000/svg") ] None
            [ mkElement "g" [] None kids ] /\
    snd (svg_tree data width height padding invert hp invert_highlight os nbf
                  true w)
    = Ok (mkElement "svg"
            [ ("width", str_int height); ("height", str_int width);
              ("xmlns", "http://www.w3.org/2000/svg") ] None
            [ mkElement "g"
                [ ("transform",
                   "translate(0, " ++ str_int width ++ ") rotate(-90)") ]
                None kids ]).
Proof.
  rewrite !generate_svg_tree_run; cbn [snd].
  rewrite !generate_svg_body_numbers.
  destruct (numbers data width height padding hp (effective_source data os) nbf)
    as [[d3 yh]|e]; cbn [rbind fst snd]; [|discriminate].
  unfold svg_scene; cbv zeta.
  destruct (mapM _ (keys d3)) as [polys|e]; cbn [rbind]; [|discriminate].
  intros E; inversion E; subst doc. eexists. split; reflexivity.
Qed.

(** *** A single channel in the default mode *)

Lemma svg_numbers_default (data : dict (list point))
      (width height padding : Z) (hp : number) (s : string) :
  numbers data width height padding hp (Some s) true
  = (x <- numbers data width height padding hp None true ;;
     d3 <- filter_source (fst x) (Some s) true ;;
     Ok (d3, snd x)).
Proof.
  unfold svg_numbers, filter_source; cbn [negb].
  rewrite andb_false_r, andb_true_r. cbn [rbind].
  destruct (get_data_region data) as [r|e]; [|reflexivity]. cbn [rbind].
  destruct (scale_y LOGARITHMIC ln (num_val hp)) as [v|e]; [|reflexivity].
  cbn [rbind].
  destruct (normalise v _ _ _ _) as [yh|e]; [|reflexivity]. cbn [rbind].
  destruct (normalise_data data r _) as [d2|e]; reflexivity.
Qed.

Lemma svg_numbers_unfiltered_keys (data d2 : dict (list point))
      (width height padding : Z) (hp : number) (yh : Q) :
  dict_wf data ->
  numbers data width height padding hp None true = Ok (d2, yh) ->
  keys d2 = keys data.
Proof.
  intros W. unfold svg_numbers, filter_source; cbn [rbind].
  destruct (get_data_region data) as [r|e]; [|discriminate]. cbn [rbind].
  destruct (scale_y LOGARITHMIC ln (num_val hp)) as [v|e]; [|discriminate].
  cbn [rbind].
  destruct (normalise v _ _ _ _) as [y|e]; [|discriminate]. cbn [rbind].
  destruct (normalise_data data r _) as [d|e] eqn:En; [|discriminate].
  cbn [rbind]. intros H; inversion H; subst.
  eapply normalise_data_keys; eauto.
Qed.

Lemma svg_scene_total (d : dict (list point)) (width height padding : Z)
      (i : bool) (hp : number) (ih : bool) (os : option string) (rot : bool)
      (yh : Q) :
  exists polys,
    mapM (fun source => pts <- dict_getitem d source ;;
                        Ok (polyline fmt_2f height
                                     (if i then "white" else "black") pts))
         (keys d) = Ok polys /\
    exists a b c e f g h ga sa,
      scene d width height padding i hp ih os rot yh
      = Ok (mkElement "svg" sa None
              [ mkElement "g" ga None ([a; b; c; e; f; g; h] ++ polys) ]).
Proof.
  destruct (polylines_ok fmt_2f d height (if i then "white" else "black"))
    as (polys & E & _).
  exists polys. split; [exact E|].
  unfold svg_scene; cbv zeta. rewrite E; cbn [rbind].
  repeat eexists.
Qed.

(** In the default mode (normalise before filter) a single-channel call
    fails exactly when the all-channels call fails, with the same
    exception: the extent, the threshold and the normalised points are
    those of the whole dict. *)
Theorem single_channel_fails_alike (data : dict (list point))
        (width height padding : Z) (invert : option bool) (hp : number)
        (invert_highlight : option bool) (s : string) (rot : bool)
        (w : world) (e : exn) :
  dict_wf data ->
  dict_mem s data = true ->
  (snd (svg data width height padding invert hp invert_highlight (Some s)
            true rot w) = Raise e
   <-> snd (svg data width height padding invert hp invert_highlight None
                true rot w) = Raise e).
Proof.
  intros W M.
  rewrite !(generate_svg_run LOGARITHMIC ln str_float fmt_2f tostring).
  cbn [snd effective_source]. rewrite M.
  rewrite !generate_svg_body_numbers, svg_numbers_default.
  destruct (numbers data width height padding hp None true)
    as [[d2 yh]|e0] eqn:En; cbn [rbind fst snd]; [|reflexivity].
  pose proof (svg_numbers_unfiltered_keys data d2 width height padding hp yh
                W En) as K.
  assert (Hf : exists d3, filter_source d2 (Some s) true = Ok d3).
  { unfold filter_source. destruct (truthy (Some s) && true);
      [|now eexists].
    destruct (dict_getitem_keys d2 s) as (pts & ->);
      [rewrite K; now apply dict_mem_In|]. cbn [rbind]. now eexists. }
  destruct Hf as (d3 & ->). cbn [rbind fst snd].
  destruct (svg_scene_total d3 width height padding
              (snd (flip invert w)) hp
              (snd (flip invert_highlight (fst (flip invert w))))
              (Some s) rot yh)
    as (p1 & _ & a1 & b1 & c1 & e1 & f1 & g1 & h1 & ga1 & sa1 & ->).
  destruct (svg_scene_total d2 width height padding
              (snd (flip invert w)) hp
              (snd (flip invert_highlight (fst (flip invert w))))
              None rot yh)
    as (p2 & _ & a2 & b2 & c2 & e2 & f2 & g2 & h2 & ga2 & sa2 & ->).
  unfold rmap; cbn [rbind]. split; discriminate.
Qed.

(** In the default mode the single-channel picture is the all-channels
    picture with the other polylines left out: the grey rectangle and every
    fixed element except the title are identical, and the one polyline
    drawn is, attribute for attribute, one of the polylines of the
    all-channels document. *)
Theorem single_channel_comparable (data : dict (list point))
        (width height padding : Z) (invert : option bool) (hp : number)
        (invert_highlight : option bool) (s : string) (rot : bool)
        (w : world) (doc_all doc_one : Element) :
  dict_wf data ->
  dict_mem s data = true ->
  s <> "" ->
  snd (svg_tree data width height padding invert hp invert_highlight None
                true rot w) = Ok doc_all ->
  snd (svg_tree data width height padding invert hp invert_highlight (Some s)
                true rot w) = Ok doc_one ->
  band doc_one = band doc_all /\
  (forall j, (j < 7)%nat -> j <> 2%nat ->
     nth_error (group_children doc_one) j
     = nth_error (group_children doc_all) j) /\
  exists poly,
    skipn 7 (group_children doc_one) = [poly] /\
    In poly (skipn 7 (group_children doc_all)).
Proof.
  intros W M Ne.
  rewrite !generate_svg_tree_run; cbn [snd effective_source]. rewrite M.
  rewrite !generate_svg_body_numbers, svg_numbers_default.
  destruct (numbers data width height padding hp None true)
    as [[d2 yh]|e0] eqn:En; cbn [rbind fst snd]; [|discriminate].
  pose proof (svg_numbers_unfiltered_keys data d2 width height padding hp yh
                W En) as K.
  assert (T : truthy (Some s) = true).
  { simpl. destruct (String.eqb_spec s ""); [contradiction|reflexivity]. }
  unfold filter_source. rewrite T; cbn [andb].
  destruct (dict_getitem_keys d2 s) as (pts & G);
    [rewrite K; now apply dict_mem_In|].
  rewrite G; cbn [rbind fst snd].
  unfold svg_scene; cbv zeta.
  destruct (mapM _ (keys d2)) as [polys|e] eqn:Ep; cbn [rbind]; [|discriminate].
  intros Ea; inversion Ea; subst doc_all; clear Ea.
  cbn [dict_of_items fold_left dict_set fst snd keys map mapM dict_getitem].
  rewrite String.eqb_refl. cbn [rbind].
  intros Eo; inversion Eo; subst doc_one; clear Eo.
  split; [reflexivity|]. split.
  - intros j Lj Nj.
    do 7 (destruct j as [|j];
          [first [reflexivity | exfalso; apply Nj; reflexivity]|]). lia.
  - eexists. split; [reflexivity|].
    cbn [group_children children_of app skipn].
    eapply (mapM_In _ _ _ s); [exact Ep| |].
    + rewrite K. apply (proj1 (dict_mem_In s data)). exact M.
    + cbn beta. rewrite G. reflexivity.
Qed.

End RenderingMore.

Lemma generate_svg_no_points_witness :
  get_data_region empty_channel_data = Raise ValueError /\
  snd (generate_svg false (fun q => q) show_Q show_Q show_element
         empty_channel_data 1448 1072 50 None (PyInt 1000) None (Some "A")
         false true world0) = Raise ValueError.
Proof.
  apply (generate_svg_no_points false (fun q => q) show_Q show_Q show_element
           empty_channel_data 1448 1072 50 None (PyInt 1000) None (Some "A")
           false true world0).
  reflexivity.
Defined.

Lemma rotate_changes_wrapper_only_witness :
  exists kids,
    scenario_doc None false
    = mkElement "svg"
        [ ("width", str_int 1448); ("height", str_int 1072);
          ("xmlns", "http://www.w3.org/2000/svg") ] None
        [ mkElement "g" [] None kids ] /\
    snd (generate_svg_tree false (fun q => q) show_Q show_Q scenario_data
           1448 1072 50 (Some false) (PyInt 300) (Some false) None true true
           world0)
    = Ok (mkElement "svg"
            [ ("width", str_int 1072); ("height", str_int 1448);
              ("xmlns", "http://www.w3.org/2000/svg") ] None
            [ mkElement "g"
                [ ("transform",
                   "translate(0, " ++ str_int 1448 ++ ") rotate(-90)") ]
                None kids ]).
Proof.
  apply (rotate_changes_wrapper_only false (fun q => q) show_Q show_Q
           scenario_data 1448 1072 50 (Some false) (PyInt 300) (Some false)
           None true world0 (scenario_doc None false)).
  vm_compute. reflexivity.
Defined.

Lemma flat_data_wf : dict_wf flat_data.
Proof.
  unfold dict_wf; simpl. constructor; [simpl; tauto|constructor].
Defined.

Lemma single_channel_fails_alike_witness :
  snd (generate_svg false (fun q => q) show_Q show_Q show_element flat_data
         1448 1072 50 None (PyInt 1000) None (Some "A") true true world0)
  = Raise ZeroDivisionError
  <-> snd (generate_svg false (fun q => q) show_Q show_Q show_element
             flat_data 1448 1072 50 None (PyInt 1000) None None true true
             world0)
      = Raise ZeroDivisionError.
Proof.
  apply (single_channel_fails_alike false (fun q => q) show_Q show_Q
           show_element flat_data 1448 1072 50 None (PyInt 1000) None "A"
           true world0 ZeroDivisionError flat_data_wf).
  reflexivity.
Defined.

Lemma single_channel_comparable_witness :
  band (scenario_doc (Some "A") true) = band (scenario_doc None true) /\
  (forall j, (j < 7)%nat -> j <> 2%nat ->
     nth_error (group_children (scenario_doc (Some "A") true)) j
     = nth_error (group_children (scenario_doc None true)) j) /\
  exists poly,
    skipn 7 (group_children (scenario_doc (Some "A") true)) = [poly] /\
    In poly (skipn 7 (group_children (scenario_doc None true))).
Proof.
  apply (single_channel_comparable false (fun q => q) show_Q show_Q
           scenario_data 1448 1072 50 (Some false) (PyInt 300) (Some false)
           "A" true world0 (scenario_doc None true)
           (scenario_doc (Some "A") true) scenario_data_wf eq_refl).
  - intros H; discriminate H.
  - vm_compute. reflexivity.
  - vm_compute. reflexivity.
Defined.

(** ** More on [convert_sensor_data] *)

Lemma dict_set_In {V} (k : string) (v : V) (d : dict V) (kv : string * V) :
  In kv (dict_set k v d) -> In kv d \/ kv = (k, v).
Proof.
  induction d as [|[k' v'] d IH]; simpl.
  - intros [<-|[]]; now right.
  - destruct (String.eqb_spec k k') as [->|Ne]; simpl.
    + intros [<-|I]; [now right|left; now right].
    + intros [<-|I]; [left; now left|].
      destruct (IH I) as [I'|E]; [left; now right|now right].
Qed.

Lemma dict_set_keys {V} (k : string) (v : V) (d : dict V) :
  keys (dict_set k v d)
  = if dict_mem k d then keys d else (keys d ++ [k])%list.
Proof.
  induction d as [|[k' v'] d IH]; simpl; [reflexivity|].
  destruct (String.eqb_spec k k') as [->|Ne]; simpl; [reflexivity|].
  rewrite IH. destruct (dict_mem k d); reflexivity.
Qed.

Lemma dict_set_wf {V} (k : string) (v : V) (d : dict V) :
  dict_wf d -> dict_wf (dict_set k v d).
Proof.
  unfold dict_wf. intros W. rewrite dict_set_keys.
  destruct (dict_mem k d) eqn:M; [exact W|].
  apply NoDup_app; [exact W|constructor; [simpl; tauto|constructor]|].
  intros x Ix [<-|[]]. apply dict_mem_In in Ix. congruence.
Qed.

Lemma fold_dict_set_wf {V} (items : list (string * V)) (d : dict V) :
  dict_wf d ->
  dict_wf (fold_left (fun d kv => dict_set (fst kv) (snd kv) d) items d).
Proof.
  revert d; induction items as [|[k v] items IH]; intros d W; simpl;
    [exact W|].
  apply IH. now apply dict_set_wf.
Qed.

Lemma fold_dict_set_In {V} (items : list (string * V)) (d : dict V)
      (kv : string * V) :
  In kv (fold_left (fun d kv => dict_set (fst kv) (snd kv) d) items d) ->
  In kv d \/ In kv items.
Proof.
  revert d; induction items as [|[k v] items IH]; intros d; simpl;
    [now left|].
  intros I. destruct (IH _ I) as [I'|I']; [|right; now right].
  destruct (dict_set_In k v d kv I') as [I''|E]; [now left|].
  right; left; now symmetry.
Qed.

(** A dict comprehension always yields pairwise distinct keys, and every
    entry comes from one of the items. *)
Lemma dict_of_items_dict {V} (items : list (string * V)) :
  dict_wf (dict_of_items items) /\
  forall kv, In kv (dict_of_items items) -> In kv items.
Proof.
  split.
  - apply fold_dict_set_wf. constructor.
  - intros kv I. destruct (fold_dict_set_In items [] kv I) as [[]|I'].
    exact I'.
Qed.

Lemma mapM_In_inv {A B} (f : A -> result B) (l : list A) (bs : list B)
      (b : B) :
  mapM f l = Ok bs -> In b bs -> exists a, In a l /\ f a = Ok b.
Proof.
  revert bs; induction l as [|a l IH]; intros bs H I; simpl in H.
  - inversion H; subst. destruct I.
  - destruct (f a) as [b0|e] eqn:E0; simpl in H; [|discriminate].
    destruct (mapM f l) as [bs'|e]; simpl in H; [|discriminate].
    inversion H; subst. destruct I as [<-|I].
    + exists a; split; [now left|exact E0].
    + destruct (IH bs' eq_refl I) as (a' & I' & E').
      exists a'; split; [now right|exact E'].
Qed.

Section ConversionMore.

Variable LOGARITHMIC : bool.
Variable ln : Q -> Q.

Local Abbreviation convert := (convert_sensor_data LOGARITHMIC ln).

Local Abbreviation cell i :=
  (fun p : list Q =>
     x <- index p 0 ;; v <- index p i ;;
     y <- scale_y LOGARITHMIC ln v ;; Ok (x, y)).

Lemma convert_ok_inv (raw : sensor_json) (d : dict (list point)) :
  convert raw = Ok d ->
  exists rest row0 rows points,
    labels raw = "Time" :: rest /\
    data_rows raw = row0 :: rows /\
    mapM (fun i => mapM (cell i) (row0 :: rows)) (seq 1 (length row0 - 1))
    = Ok points /\
    d = dict_of_items (combine rest points).
Proof.
  unfold convert_sensor_data.
  destruct (labels raw) as [|label0 rest]; [discriminate|].
  cbn [index nth_error rbind tl].
  destruct (String.eqb_spec label0 "Time") as [->|Ne]; cbn [negb];
    [|discriminate].
  destruct (data_rows raw) as [|row0 rows]; [discriminate|].
  cbn [index nth_error rbind].
  destruct (forallb _ (row0 :: rows)); cbn [negb]; [|discriminate].
  destruct (mapM _ (seq 1 (length row0 - 1))) as [points|e] eqn:E;
    cbn [rbind]; [|discriminate].
  intros H; inversion H; subst. now exists rest, row0, rows, points.
Qed.

Lemma cell_times (i : nat) (rows : list (list Q)) (pts : list point) :
  mapM (cell i) rows = Ok pts ->
  map fst pts = map (fun p => nth 0 p 0) rows.
Proof.
  revert pts; induction rows as [|p rows IH]; intros pts H; simpl in H.
  - now inversion H.
  - unfold index in H at 1.
    destruct (nth_error p 0) as [x|] eqn:E0; cbn [rbind] in H;
      [|discriminate].
    destruct (index p i) as [v|e]; cbn [rbind] in H; [|discriminate].
    destruct (scale_y LOGARITHMIC ln v) as [y|e]; cbn [rbind] in H;
      [|discriminate].
    destruct (mapM _ rows) as [pts'|e]; cbn [rbind] in H; [|discriminate].
    inversion H; subst. simpl. f_equal; [|now apply IH].
    destruct p as [|x0 p]; simpl in *; congruence.
Qed.

(** Whatever [convert_sensor_data] returns is a snapshot as the renderer
    expects it: channel names are pairwise distinct and come from
    [labels[1:]], there are at most [len(labels) - 1] of them, every channel
    has one sample per row, and the sample times of every channel are the
    first column of the rows, in order. *)
Theorem convert_sensor_data_shape (raw : sensor_json)
        (d : dict (list point)) :
  convert raw = Ok d ->
  dict_wf d /\
  (length d <= length (labels raw) - 1)%nat /\
  forall k pts, In (k, pts) d ->
    In k (tl (labels raw)) /\
    length pts = length (data_rows raw) /\
    map fst pts = map (fun p => nth 0 p 0) (data_rows raw).
Proof.
  intros H.
  destruct (convert_ok_inv raw d H)
    as (rest & row0 & rows & points & Hl & Hd & Ep & ->).
  destruct (dict_of_items_dict (combine rest points)) as [W I].
  split; [exact W|]. split.
  - rewrite Hl.
    replace (length ("Time" :: rest) - 1)%nat with (length rest)
      by (cbn [length]; lia).
    apply Nat.le_trans
      with (length (keys (dict_of_items (combine rest points))));
      [unfold keys; rewrite length_map; apply le_n|].
    assert (Inc : incl (keys (dict_of_items (combine rest points))) rest).
    { intros k Ik. unfold keys in Ik.
      apply in_map_iff in Ik as ([k' v] & <- & Ikv).
      apply I in Ikv. now apply in_combine_l in Ikv. }
    apply NoDup_incl_length; [exact W|exact Inc].
  - intros k pts Ik. apply I in Ik. rewrite Hl, Hd. cbn [tl].
    split; [now apply in_combine_l in Ik|].
    apply in_combine_r in Ik.
    destruct (mapM_In_inv _ _ _ _ Ep Ik) as (i & _ & Ei).
    split; [now apply (mapM_length _ _ _ Ei)|now apply (cell_times i)].
Qed.

(** Once both checks have passed no index can be out of range: the
    conversion returns a snapshot, or, with [LOGARITHMIC] on only, stops on
    the ValueError of [math.log]. *)
Theorem convert_checked_outcomes (raw : sensor_json) (rest : list string)
        (row0 : list Q) (rows : list (list Q)) :
  labels raw = "Time" :: rest ->
  data_rows raw = row0 :: rows ->
  Forall (fun row => length row = length row0) rows ->
  (exists d, convert raw = Ok d) \/
  (LOGARITHMIC = true /\ convert raw = Raise ValueError).
Proof.
  intros Hl Hd F.
  destruct (convert_no_exception LOGARITHMIC ln raw rest row0 rows Hl Hd F)
    as [(points & E & _)|[E T]].
  - left. eexists. exact E.
  - right. split; [exact T|exact E].
Qed.

End ConversionMore.

Lemma dict_set_map_values {V W} (F : V -> W) (k : string) (v : V)
      (d : dict V) :
  dict_set k (F v) (map (fun kv => (fst kv, F (snd kv))) d)
  = map (fun kv => (fst kv, F (snd kv))) (dict_set k v d).
Proof.
  induction d as [|[k' v'] d IH]; simpl; [reflexivity|].
  destruct (String.eqb k k'); simpl; [reflexivity|]. now rewrite IH.
Qed.

Lemma dict_of_items_map_values {V W} (F : V -> W)
      (items : list (string * V)) :
  dict_of_items (map (fun kv => (fst kv, F (snd kv))) items)
  = map (fun kv => (fst kv, F (snd kv))) (dict_of_items items).
Proof.
  unfold dict_of_items.
  change (@nil (string * W))
    with (map (fun kv : string * V => (fst kv, F (snd kv))) []).
  generalize (@nil (string * V)) as d.
  induction items as [|[k v] items IH]; intros d; simpl; [reflexivity|].
  rewrite dict_set_map_values. apply IH.
Qed.

Lemma combine_map_values {V W} (F : V -> W) (l : list string)
      (vs : list V) :
  combine l (map F vs)
  = map (fun kv => (fst kv, F (snd kv))) (combine l vs).
Proof.
  revert vs; induction l as [|k l IH]; intros [|v vs]; simpl;
    try reflexivity.
  now rewrite IH.
Qed.

(** With [LOGARITHMIC] on and every channel value positive, the conversion
    succeeds and is the linear conversion with [math.log] applied to each
    y: the same channels, in the same order, with the same times. *)
Theorem convert_log_of_linear (ln : Q -> Q) (raw : sensor_json)
        (rest : list string) (row0 : list Q) (rows : list (list Q)) :
  labels raw = "Time" :: rest ->
  data_rows raw = row0 :: rows ->
  Forall (fun row => length row = length row0) rows ->
  (forall row i v, In row (row0 :: rows) -> (1 <= i)%nat ->
                   nth_error row i = Some v -> 0 < v) ->
  exists d,
    convert_sensor_data false ln raw = Ok d /\
    convert_sensor_data true ln raw
    = Ok (map (fun kv =>
                 (fst kv, map (fun p => (fst p, ln (snd p))) (snd kv))) d).
Proof.
  intros Hl Hd F Pos.
  assert (Fa : Forall (fun r => length r = length row0) (row0 :: rows))
    by (constructor; [reflexivity|exact F]).
  rewrite Forall_forall in Fa.
  rewrite !(convert_checked _ ln raw rest row0 rows Hl Hd F).
  rewrite (mapM_map_ok _ (fun i => column i (row0 :: rows))).
  2:{ intros i Ii. apply in_seq in Ii. unfold column.
      apply mapM_map_ok. intros p Ip. pose proof (Fa p Ip) as Lp.
      rewrite !index_nth by lia. reflexivity. }
  rewrite (mapM_map_ok _
             (fun i => map (fun p => (fst p, ln (snd p)))
                           (column i (row0 :: rows)))).
  2:{ intros i Ii. apply in_seq in Ii. unfold column. rewrite map_map.
      apply mapM_map_ok. intros p Ip. pose proof (Fa p Ip) as Lp.
      rewrite !index_nth by lia. cbn [rbind fst snd].
      unfold scale_y, log.
      assert (P : 0 < nth i p 0).
      { apply (Pos p i); [exact Ip|lia|]. apply nth_error_nth'. lia. }
      destruct (Qle_bool (nth i p 0) 0) eqn:E; [|reflexivity].
      apply Qle_bool_iff in E. exfalso. now apply (Qlt_not_le 0 (nth i p 0)). }
  cbn [rbind]. eexists. split; [reflexivity|]. f_equal.
  rewrite <- dict_of_items_map_values, <- combine_map_values.
  now rewrite map_map.
Qed.

Lemma convert_log_of_linear_witness :
  exists d,
    convert_sensor_data false (fun q => q - 1) scenario_json = Ok d /\
    convert_sensor_data true (fun q => q - 1) scenario_json
    = Ok (map (fun kv =>
                 (fst kv, map (fun p => (fst p, snd p - 1)) (snd kv))) d).
Proof.
  apply (convert_log_of_linear (fun q => q - 1) scenario_json ["A"; "B"]
           [0; 10; 200] [ [1; 20; 300]; [2; 50; 400] ]).
  - reflexivity.
  - reflexivity.
  - repeat constructor.
  - intros row i v I Hi Hv.
    destruct I as [<-|[<-|[<-|[]]]];
      (destruct i as [|[|[|i]]];
       [lia| | |destruct i; discriminate Hv]);
      inversion Hv; reflexivity.
Defined.

Lemma convert_sensor_data_shape_witness :
  dict_wf scenario_data /\
  (length scenario_data <= length (labels scenario_json) - 1)%nat /\
  forall k pts, In (k, pts) scenario_data ->
    In k (tl (labels scenario_json)) /\
    length pts = length (data_rows scenario_json) /\
    map fst pts = map (fun p => nth 0 p 0) (data_rows scenario_json).
Proof.
  apply (convert_sensor_data_shape false (fun q => q) scenario_json
           scenario_data).
  reflexivity.
Defined.

Lemma convert_checked_outcomes_witness :
  (exists d, convert_sensor_data true (fun q => q) surplus_json = Ok d) \/
  (true = true /\
   convert_sensor_data true (fun q => q) surplus_json = Raise ValueError).
Proof.
  apply (convert_checked_outcomes true (fun q => q) surplus_json
           ["A"; "B"; "C"] [0; 10] [ [1; 20] ]).
  - reflexivity.
  - reflexivity.
  - repeat constructor.
Defined.

(** ** The two stages chained *)

Lemma convert_wf (LOGARITHMIC : bool) (ln : Q -> Q) (raw : sensor_json)
      (d : dict (list point)) :
  convert_sensor_data LOGARITHMIC ln raw = Ok d -> dict_wf d.
Proof.
  intros H.
  destruct (convert_ok_inv LOGARITHMIC ln raw d H)
    as (rest & row0 & rows & points & _ & _ & _ & ->).
  apply dict_of_items_dict.
Qed.

(** A reply that converts to a snapshot with a non-degenerate extent is
    rendered in full: the all-channels call on the converted reply returns
    a document with exactly one polyline per channel of the snapshot, and
    prints nothing. *)
Theorem render_all_channels (LOGARITHMIC : bool) (ln : Q -> Q)
        (str_float fmt_2f : Q -> string) (tostring : Element -> string)
        (raw : sensor_json) (d : dict (list point)) (r : Region)
        (width height padding : Z) (invert : option bool) (hp : number)
        (invert_highlight : option bool) (nbf rot : bool) (w : world) :
  convert_sensor_data LOGARITHMIC ln raw = Ok d ->
  get_data_region d = Ok r ->
  ~ degenerate r ->
  LOGARITHMIC = false \/ 0 < num_val hp ->
  exists doc,
    snd (render LOGARITHMIC ln str_float fmt_2f tostring raw width height
                padding invert hp invert_highlight None nbf rot w)
    = Ok (tostring doc) /\
    count_tag "polyline" doc = length d /\
    stdout (fst (render LOGARITHMIC ln str_float fmt_2f tostring raw width
                        height padding invert hp invert_highlight None nbf
                        rot w)) = stdout w.
Proof.
  intros C E N Hs. unfold render, bind, lift. rewrite C.
  rewrite generate_svg_run. cbn [fst snd noticed effective_source].
  destruct (generate_svg_body_ok LOGARITHMIC ln str_float fmt_2f d width
              height padding (snd (flip invert w)) hp
              (snd (flip invert_highlight (fst (flip invert w))))
              None nbf rot r (convert_wf _ _ _ _ C) Hs E N)
    as (doc & Eb & Cn).
  cbn [effective_source] in Eb, Cn. rewrite Eb.
  exists doc. split; [reflexivity|]. split; [exact Cn|].
  now rewrite !stdout_flip.
Qed.

Lemma render_all_channels_witness :
  exists doc,
    snd (render false (fun q => q) show_Q show_Q show_element scenario_json
                1448 1072 50 None (PyInt 300) None None true true world0)
    = Ok (show_element doc) /\
    count_tag "polyline" doc = length scenario_data /\
    stdout (fst (render false (fun q => q) show_Q show_Q show_element
                        scenario_json 1448 1072 50 None (PyInt 300) None
                        None true true world0)) = stdout world0.
Proof.
  apply (render_all_channels false (fun q => q) show_Q show_Q show_element
           scenario_json scenario_data (mkRegion 0 10 2 400) 1448 1072 50
           None (PyInt 300) None true true world0 eq_refl eq_refl).
  - intros [H|H]; discriminate H.
  - left; reflexivity.
Defined.

(* ------------------------------------------------------------------ *)
(** * The device side *)

Lemma extend_nil (mc : machine) : extend mc [] [] = mc.
Proof.
  destruct mc as [[c n o] a]. unfold extend; simpl. now rewrite !app_nil_r.
Qed.

Lemma extend_extend (mc : machine) (l1 l2 : list string)
      (a1 a2 : list action) :
  extend (extend mc l1 a1) l2 a2 = extend mc (l1 ++ l2) (a1 ++ a2).
Proof.
  unfold extend; simpl. now rewrite !app_assoc.
Qed.

Lemma io_for_extend {A} (body : A -> IO unit)
      (lines : A -> list string) (acts : A -> list action) (l : list A) :
  (forall a mc, In a l -> body a mc = (extend mc (lines a) (acts a), Ok tt)) ->
  forall mc,
    io_for l body mc
    = (extend mc (flat_map lines l) (flat_map acts l), Ok tt).
Proof.
  induction l as [|a l IH]; intros H mc; simpl.
  - unfold io_ret. now rewrite extend_nil.
  - unfold io_bind. rewrite (H a mc (or_introl eq_refl)).
    rewrite IH by (intros; apply H; now right).
    now rewrite extend_extend.
Qed.

Lemma display_file_run (filename : string) (mc : machine) :
  display_file filename mc
  = (extend mc ["Displaying " ++ filename]
       [Run ["fbink"; "-c"; "-g";
             "file=" ++ filename ++ ",w=1072,halign=center,valign=center"]],
     Ok tt).
Proof. reflexivity. Qed.

Lemma flat_map_filter {A B} (c : A -> bool) (f : A -> list B) (l : list A) :
  flat_map (fun a => if c a then f a else []) l = flat_map f (filter c l).
Proof.
  induction l as [|a l IH]; simpl; [reflexivity|].
  destruct (c a); simpl; now rewrite IH.
Qed.

Lemma display_directory (root : string) (files : list string)
      (mc : machine) :
  io_for files (fun f =>
    if endswith f ".png" && negb (String.eqb f "all.png") then
      _ <~ display_file (root ++ "all.png") ;;
      _ <~ sleep 15 ;;
      _ <~ display_file (root ++ f) ;;
      sleep 15
    else io_ret tt) mc
  = (extend mc (show_lines root files) (show_trace root files), Ok tt).
Proof.
  unfold show_lines, show_trace, shown. rewrite <- !flat_map_filter.
  apply io_for_extend. intros f mc' _.
  destruct (endswith f ".png" && negb (String.eqb f "all.png")).
  - unfold io_bind, sleep, act. rewrite !display_file_run.
    unfold extend; cbn. now rewrite <- !app_assoc.
  - unfold io_ret. now rewrite extend_nil.
Qed.

Lemma shown_none (files : list string) :
  (forall f, In f files -> endswith f ".png" = true -> f = "all.png") ->
  shown files = [].
Proof.
  intros H. unfold shown. induction files as [|f files IH]; [reflexivity|].
  simpl. destruct (endswith f ".png") eqn:E; simpl.
  - rewrite (H f (or_introl eq_refl) E). simpl.
    apply IH. intros; apply H; [now right|assumption].
  - apply IH. intros; apply H; [now right|assumption].
Qed.

Lemma flat_map_nil {A B} (f : A -> list B) (l : list A) :
  (forall a, In a l -> f a = []) -> flat_map f l = [].
Proof.
  induction l as [|a l IH]; intros H; simpl; [reflexivity|].
  rewrite (H a (or_introl eq_refl)). apply IH. intros; apply H; now right.
Qed.

(** The all-channels image is only ever shown ahead of a channel image:
    when no directory holds a ".png" file other than "all.png",
    [display_files] shows nothing, prints nothing and does not sleep. *)
Theorem display_files_needs_a_channel
        (os_walk : string -> list (string * list string * list string))
        (output_dir : string) (mc : machine) :
  (forall root dirs files f,
      In (root, dirs, files) (os_walk output_dir) -> In f files ->
      endswith f ".png" = true -> f = "all.png") ->
  display_files os_walk output_dir mc = (mc, Ok tt).
Proof.
  intros H. unfold display_files.
  rewrite (io_for_extend _
             (fun entry => show_lines (fst (fst entry)) (snd entry))
             (fun entry => show_trace (fst (fst entry)) (snd entry)));
    [|intros entry mc' _; apply display_directory].
  assert (S : forall entry, In entry (os_walk output_dir) ->
                            shown (snd entry) = []).
  { intros [[root dirs] files] I. apply shown_none.
    intros f If. now apply (H root dirs files). }
  rewrite !flat_map_nil; [now rewrite extend_nil| |].
  - intros entry I. unfold show_trace. now rewrite (S entry I).
  - intros entry I. unfold show_lines. now rewrite (S entry I).
Qed.

Lemma display_files_needs_a_channel_witness :
  display_files lonely_walk "/tmp/iotawatt/" machine0 = (machine0, Ok tt).
Proof.
  apply (display_files_needs_a_channel lonely_walk "/tmp/iotawatt/" machine0).
  intros root dirs files f I If E.
  destruct I as [I|[]]. inversion I; subst.
  destruct If as [<-|[<-|[]]]; [reflexivity|discriminate E].
Defined.

(** ** [generate_files] *)

Lemma with_open_write_raise (path : string) (content : M string)
      (mc : machine) (w' : world) (e : exn) :
  content (mworld mc) = (w', Raise e) ->
  with_open_write path content mc
  = (mkMachine w' (actions mc ++ [Open path; Close path]), Raise e).
Proof.
  intros H. unfold with_open_write, io_bind, act, run_M. cbn [mworld actions].
  rewrite H. cbn [mworld actions]. now rewrite <- !app_assoc.
Qed.

(** [generate_files] fetches and converts before touching the output
    directory: when the conversion raises, nothing has been done.  When
    the conversion succeeds but the all-channels call raises, the old
    directory has already been removed and re-created and
    [output_dir/all.svg] opened: the exception leaves that file empty, no
    image is rasterised and no channel is attempted. *)
Theorem generate_files_failure (LOGARITHMIC : bool) (ln : Q -> Q)
        (str_float fmt_2f : Q -> string) (tostring : Element -> string)
        (script_dir : string) (sensor_data : sensor_json)
        (path_exists : list action -> string -> bool)
        (output_dir : string) (mc : machine) :
  (forall e,
      convert_sensor_data LOGARITHMIC ln sensor_data = Raise e ->
      generate_files LOGARITHMIC ln str_float fmt_2f tostring script_dir
                     sensor_data path_exists output_dir mc
      = (mc, Raise e)) /\
  (forall data w' e,
      convert_sensor_data LOGARITHMIC ln sensor_data = Ok data ->
      generate_svg LOGARITHMIC ln str_float fmt_2f tostring data 1448 1072 50
                   None (PyInt 1000) None None true true (mworld mc)
      = (w', Raise e) ->
      generate_files LOGARITHMIC ln str_float fmt_2f tostring script_dir
                     sensor_data path_exists output_dir mc
      = (mkMachine w'
           (actions mc
              ++ [ Rmtree output_dir; Makedirs output_dir;
                   Open ((output_dir ++ "/all") ++ ".svg");
                   Close ((output_dir ++ "/all") ++ ".svg") ]),
         Raise e)).
Proof.
  split.
  - intros e C. unfold generate_files, get_iotawatt_sensor_data, io_bind.
    now rewrite C.
  - intros data w' e C E.
    unfold generate_files, get_iotawatt_sensor_data.
    unfold io_bind at 1. rewrite C.
    unfold io_bind at 1. unfold act at 1.
    unfold io_bind at 1. unfold act at 1. cbv zeta.
    unfold io_bind at 1.
    rewrite (with_open_write_raise _ _ _ w' e) by exact E.
    cbn [mworld actions]. now rewrite <- !app_assoc.
Qed.

Lemma generate_files_failure_witness :
  generate_files false (fun q => q) show_Q show_Q show_element "/mnt/us"
                 no_channel_json (fun _ _ => false) "/tmp/iotawatt/" machine0
  = (mkMachine (mkWorld (coins world0) 2 (stdout world0))
       (actions machine0
          ++ [ Rmtree "/tmp/iotawatt/"; Makedirs "/tmp/iotawatt/";
               Open (("/tmp/iotawatt/" ++ "/all") ++ ".svg");
               Close (("/tmp/iotawatt/" ++ "/all") ++ ".svg") ]),
     Raise ValueError).
Proof.
  apply (proj2 (generate_files_failure false (fun q => q) show_Q show_Q
                  show_element "/mnt/us" no_channel_json (fun _ _ => false)
                  "/tmp/iotawatt/" machine0)
               [] (mkWorld (coins world0) 2 (stdout world0)) ValueError).
  - reflexivity.
  - reflexivity.
Defined.

(* ------------------------------------------------------------------ *)
(** * The polylines *)



Section Drawing.

Variable LOGARITHMIC : bool.
Variable ln : Q -> Q.
Variables str_float fmt_2f : Q -> string.

Local Abbreviation svg_tree := (generate_svg_tree LOGARITHMIC ln str_float fmt_2f).


End Drawing.

